(** * memfs and file_unix of go-nfs: a shallow embedding and its properties

    The embedding follows [helpers/memfs/memfs.go] (the in-memory billy
    filesystem with stable mtimes) and [file/file_unix.go] (the decoding of
    the native stat structure).  Go's [int] and [int64] are 64-bit integers
    carried by [Z] with the wrap-around written out; [os.FileMode] is a
    32-bit set of bits carried by [Z]; byte slices are [list Byte.byte];
    Go strings are [string].  Pointers to [content] structs are locations of
    a heap, so that an Entry and the Handles opened on it share one buffer. *)

From Stdlib Require Import ZArith List Strings.String Strings.Ascii Strings.Byte Lia Permutation Sorted.
From Stdlib Require Import btauto.Btauto.
From Stdlib Require OrderedTypeEx.
From stdpp Require Import base option gmap strings list sorting.

Local Open Scope string_scope.
Local Open Scope Z_scope.

(** ** Errors *)

(** The error values the package produces: the sentinels of [os], [io] and
    [syscall], the strings of [errors.New] / [fmt.Errorf], and [os.PathError]. *)
Inductive error : Type :=
| ErrNotExist
| ErrExist
| ErrClosed
| EOF
| ErrShortWrite
| ENOENT
| errorString (s : string)
| PathError (Op Path : string) (Err : error).

(** [os.IsNotExist]: one layer of [PathError] is unwrapped, then the error is
    compared with [os.ErrNotExist]; the errno [ENOENT] matches it too. *)
Definition underlyingError (e : error) : error :=
  match e with PathError _ _ e' => e' | _ => e end.

Definition IsNotExist (e : error) : bool :=
  match underlyingError e with
  | ErrNotExist | ENOENT => true
  | _ => false
  end.

(** ** Machine integers *)

Definition wrap64 (z : Z) : Z := (z + 2 ^ 63) mod 2 ^ 64 - 2 ^ 63.
Definition in_int64 (z : Z) : Prop := - 2 ^ 63 <= z < 2 ^ 63.

(** ** Open flags and mode bits (linux values of package [os]) *)

Definition O_RDONLY : Z := 0.
Definition O_WRONLY : Z := 1.
Definition O_RDWR : Z := 2.
Definition O_CREATE : Z := 64.
Definition O_EXCL : Z := 128.
Definition O_TRUNC : Z := 512.
Definition O_APPEND : Z := 1024.

Definition ModeDir : Z := 2 ^ 31.
Definition ModeSymlink : Z := 2 ^ 27.
Definition ModePerm : Z := 511.

Definition SeekStart : Z := 0.
Definition SeekCurrent : Z := 1.
Definition SeekEnd : Z := 2.

Definition has_bit (x mask : Z) : bool := negb (Z.land x mask =? 0).

Definition isCreate (flag : Z) : bool := has_bit flag O_CREATE.
Definition isExclusive (flag : Z) : bool := has_bit flag O_EXCL.
Definition isAppend (flag : Z) : bool := has_bit flag O_APPEND.
Definition isTruncate (flag : Z) : bool := has_bit flag O_TRUNC.
Definition isReadAndWrite (flag : Z) : bool := has_bit flag O_RDWR.
Definition isReadOnly (flag : Z) : bool := flag =? O_RDONLY.
Definition isWriteOnly (flag : Z) : bool := has_bit flag O_WRONLY.
Definition isSymlink (m : Z) : bool := has_bit m ModeSymlink.
Definition IsDir (m : Z) : bool := has_bit m ModeDir.
Definition Perm (m : Z) : Z := Z.land m ModePerm.

(** ** Time *)

(** A [time.Time] instant: seconds since the epoch and nanoseconds within
    the second. *)
Record Time : Type := mkTime { t_sec : Z; t_nsec : Z }.

(** ** Content buffers and the heap *)

Record content : Type := mkContent { bytes : list Byte.byte }.

Definition loc := nat.

Definition deref (h : gmap loc content) (l : loc) : content :=
  default (mkContent []) (h !! l).

(** [content.Truncate] and [content.Len]. *)
Definition content_Truncate (c : content) : content := mkContent [].
Definition content_Len (c : content) : Z := Z.of_nat (length (bytes c)).

(** The positioned read and write of [content] live in the storage file of
    the package; the Handle operations below call them through this
    interface.  A read gives back the destination slice, the count and the
    error; a write gives back the new buffer, the count and the error. *)
Class ContentIO : Type := {
  content_ReadAt : content -> list Byte.byte -> Z -> list Byte.byte * Z * option error;
  content_WriteAt : content -> list Byte.byte -> Z -> content * Z * option error
}.

(** ** Handles: the [file] struct *)

Record file : Type := mkFile {
  name : string;
  fcontent : loc;
  position : Z;
  flag : Z;
  mode : Z;
  mtime : Time;
  isClosed : bool
}.

Definition set_position (f : file) (p : Z) : file :=
  mkFile (name f) (fcontent f) p (flag f) (mode f) (mtime f) (isClosed f).
Definition set_mtime (f : file) (t : Time) : file :=
  mkFile (name f) (fcontent f) (position f) (flag f) (mode f) t (isClosed f).
Definition set_isClosed (f : file) (b : bool) : file :=
  mkFile (name f) (fcontent f) (position f) (flag f) (mode f) (mtime f) b.

Record fileInfo : Type := mkFileInfo {
  fi_name : string;
  fi_size : Z;
  fi_mode : Z;
  fi_mtime : Time
}.

Definition set_fi_name (fi : fileInfo) (n : string) : fileInfo :=
  mkFileInfo n (fi_size fi) (fi_mode fi) (fi_mtime fi).

(** A call either returns or panics (a slice expression out of range). *)
Inductive outcome (A : Type) : Type :=
| Returns (a : A)
| Panics.
Arguments Returns {A} a.
Arguments Panics {A}.

Section Handle.
Context `{ContentIO}.

Definition file_Name (f : file) : string := name f.

Definition ReadAt (f : file) (h : gmap loc content) (b : list Byte.byte) (off : Z)
  : list Byte.byte * Z * option error :=
  if isClosed f then (b, 0, Some ErrClosed)
  else if negb (isReadAndWrite (flag f)) && negb (isReadOnly (flag f))
  then (b, 0, Some (errorString "read not supported"))
  else content_ReadAt (deref h (fcontent f)) b off.

Definition Read (f : file) (h : gmap loc content) (b : list Byte.byte)
  : file * (list Byte.byte * Z * option error) :=
  let '(b', n, err) := ReadAt f h b (position f) in
  let f' := set_position f (wrap64 (position f + n)) in
  let err' :=
    match err with
    | Some EOF => if negb (n =? 0) then None else err
    | _ => err
    end in
  (f', (b', n, err')).

Definition Seek (f : file) (h : gmap loc content) (offset whence : Z)
  : file * (Z * option error) :=
  if isClosed f then (f, (0, Some ErrClosed))
  else
    let f' :=
      if whence =? SeekCurrent then set_position f (wrap64 (position f + offset))
      else if whence =? SeekStart then set_position f offset
      else if whence =? SeekEnd
           then set_position f (wrap64 (content_Len (deref h (fcontent f)) + offset))
      else f in
    (f', (position f', None)).

Definition WriteAt (f : file) (h : gmap loc content) (p : list Byte.byte) (off : Z)
    (now : Time) : file * gmap loc content * (Z * option error) :=
  if isClosed f then (f, h, (0, Some ErrClosed))
  else if negb (isReadAndWrite (flag f)) && negb (isWriteOnly (flag f))
  then (f, h, (0, Some (errorString "write not supported")))
  else
    let '(c', n, err) := content_WriteAt (deref h (fcontent f)) p off in
    (set_mtime (set_position f (wrap64 (off + n))) now,
     <[fcontent f := c']> h, (n, err)).

Definition Write (f : file) (h : gmap loc content) (p : list Byte.byte) (now : Time)
  : file * gmap loc content * (Z * option error) :=
  WriteAt f h p (position f) now.

Definition Close (f : file) : file * option error :=
  if isClosed f then (f, Some ErrClosed)
  else (set_isClosed f true, None).

Definition Truncate (f : file) (h : gmap loc content) (size : Z) (now : Time)
  : outcome (file * gmap loc content * option error) :=
  let bs := bytes (deref h (fcontent f)) in
  if size <? Z.of_nat (length bs) then
    if size <? 0 then Panics
    else Returns (set_mtime f now,
                  <[fcontent f := mkContent (take (Z.to_nat size) bs)]> h, None)
  else
    let more := size - Z.of_nat (length bs) in
    if 0 <? more then
      Returns (set_mtime f now,
               <[fcontent f := mkContent (bs ++ replicate (Z.to_nat more) x00)%list]> h,
               None)
    else Returns (set_mtime f now, h, None).

Definition Duplicate (f : file) (h : gmap loc content) (filename : string)
    (mode flag : Z) (now : Time) : file * gmap loc content :=
  let h' := if isTruncate flag
            then <[fcontent f := content_Truncate (deref h (fcontent f))]> h
            else h in
  let pos := if isAppend flag then content_Len (deref h' (fcontent f)) else 0 in
  (mkFile filename (fcontent f) pos flag mode now false, h').

Definition file_Stat (f : file) (h : gmap loc content) : fileInfo * option error :=
  (mkFileInfo (file_Name f) (content_Len (deref h (fcontent f))) (mode f) (mtime f), None).

Definition Lock (f : file) : option error := None.
Definition Unlock (f : file) : option error := None.
End Handle.

(** ** Paths: package [path/filepath] on unix *)

Definition separator : ascii := "/"%char.

(** [strings.Split(s, "/")]. *)
Fixpoint split_sep (s : string) : list string :=
  match s with
  | EmptyString => [EmptyString]
  | String c r =>
      if Ascii.eqb c separator then EmptyString :: split_sep r
      else match split_sep r with
           | x :: xs => String c x :: xs
           | [] => [String c EmptyString]
           end
  end.

Definition rooted (path : string) : bool :=
  match path with
  | String c _ => Ascii.eqb c separator
  | EmptyString => false
  end.

(** One element of a path processed by [Clean]; [stack] holds the elements
    kept so far, last one first. *)
Definition clean_step (root : bool) (stack : list string) (c : string) : list string :=
  if String.eqb c EmptyString || String.eqb c "." then stack
  else if String.eqb c ".." then
    match stack with
    | top :: rest => if String.eqb top ".." then c :: stack else rest
    | [] => if root then [] else [c]
    end
  else c :: stack.

Definition clean_from (root : bool) (comps : list string) : string :=
  let out := rev (fold_left (clean_step root) comps []) in
  if root then String separator (String.concat "/" out)
  else match out with
       | [] => "."
       | _ => String.concat "/" out
       end.

(** [filepath.Clean]: no empty and no [.] element, an inner [..] removed with
    the element before it, a [..] at the root dropped; [.] for the empty
    path. *)
Definition Clean (path : string) : string :=
  clean_from (rooted path) (split_sep path).

(** [filepath.Dir]: what precedes the last separator, cleaned. *)
Definition Dir (path : string) : string :=
  clean_from (rooted path) (removelast (split_sep path)).

(** [filepath.Base]: the last element, trailing separators stripped. *)
Definition Base (path : string) : string :=
  if String.eqb path EmptyString then "."
  else match rev (List.filter (fun c => negb (String.eqb c EmptyString)) (split_sep path)) with
       | x :: _ => x
       | [] => String separator EmptyString
       end.

(** [filepath.Join] ([Memory.Join]): the elements from the first non-empty
    one on, joined by the separator and cleaned. *)
Fixpoint Join (elem : list string) : string :=
  match elem with
  | [] => EmptyString
  | e :: r => if String.eqb e EmptyString then Join r else Clean (String.concat "/" elem)
  end.

(** [filepath.IsAbs] on unix: the path begins with the separator. *)
Definition filepath_IsAbs (path : string) : bool := rooted path.

(** [isAbs]: [filepath.IsAbs(path) || strings.HasPrefix(path, separator)]. *)
Definition isAbs (path : string) : bool := filepath_IsAbs path || rooted path.

(** ** The content buffer *)

(** Modelled from the spec: the positioned read of the Content Buffer (the
    storage file is missing).  "Copies available bytes from offset; if
    offset >= Len() returns zero bytes with an end-of-data signal; never
    errors for in-range reads."  A read that fills less than the destination
    carries the end-of-data signal with its bytes, which is the case the
    Handle's [Read] converts; a negative offset is reported as an error. *)
Definition spec_ReadAt (c : content) (b : list Byte.byte) (off : Z)
  : list Byte.byte * Z * option error :=
  if off <? 0 then (b, 0, Some (errorString "negative offset"))
  else if content_Len c <=? off then (b, 0, Some EOF)
  else
    let got := take (length b) (drop (Z.to_nat off) (bytes c)) in
    ((got ++ drop (length got) b)%list, Z.of_nat (length got),
     if (length got <? length b)%nat then Some EOF else None).

(** Modelled from the spec: the positioned write of the Content Buffer (the
    storage file is missing).  "Grows the buffer if offset + len(buf) >
    Len(), zero-filling any gap between the old end and offset before
    writing; always succeeds and returns bytes written."  A negative offset
    is reported as an error. *)
Definition spec_WriteAt (c : content) (p : list Byte.byte) (off : Z)
  : content * Z * option error :=
  if off <? 0 then (c, 0, Some (errorString "negative offset"))
  else
    let o := Z.to_nat off in
    let padded := (bytes c ++ replicate (o - length (bytes c)) x00)%list in
    (mkContent (take o padded ++ p ++ drop (o + length p) padded)%list,
     Z.of_nat (length p), None).

Definition content_spec : ContentIO :=
  {| content_ReadAt := spec_ReadAt; content_WriteAt := spec_WriteAt |}.

(** ** The storage tree *)

(** The state of a [Memory]: the path-indexed Entries of its storage and the
    heap of content buffers the Entries and Handles point into. *)
Record Memory : Type := mkMemory {
  files : gmap string file;
  heap : gmap loc content
}.

(** Modelled from the spec: the normal form under which the Storage Tree
    keys an Entry (the storage file is missing); "lookup by normalized
    path". *)
Definition clean (path : string) : string := Clean path.

(** Modelled from the spec: [storage.Get] (the storage file is missing);
    "exact-path lookup; absent path is a normal negative result". *)
Definition Get (m : Memory) (path : string) : option file :=
  files m !! clean path.

(** Modelled from the spec: the parent of a path, none for a root. *)
Definition parent (p : string) : option string :=
  if String.eqb (Dir p) p then None else Some (Dir p).

Definition alloc (h : gmap loc content) : loc := fresh (dom h).

(** Modelled from the spec: the implicit creation of the missing ancestor
    directories of a new Entry (the storage file is missing); "directories
    are created implicitly on demand when a file is created inside them".
    [file.Stat] reads the buffer length of every Entry, so each directory
    gets an empty buffer of its own. *)
Fixpoint createParent (fuel : nat) (m : Memory) (p : string) (perm : Z) (now : Time)
  : Memory :=
  match fuel with
  | O => m
  | S k =>
      match parent p with
      | None => m
      | Some d =>
          let m' :=
            match files m !! d with
            | Some _ => m
            | None =>
                let l := alloc (heap m) in
                mkMemory (<[d := mkFile (Base d) l 0 0 (Z.lor perm ModeDir) now false]> (files m))
                         (<[l := mkContent []]> (heap m))
            end in
          createParent k m' d perm now
      end
  end.

(** Modelled from the spec: [storage.New] (the storage file is missing);
    "if path exists and O_EXCL was requested, fails with already-exists;
    otherwise creates (or reuses, depending on exclusivity) an Entry,
    auto-creating any missing ancestor directories along the path". *)
Definition New (m : Memory) (path : string) (mode flag : Z) (now : Time)
  : Memory * (file + error) :=
  match files m !! clean path with
  | Some f => if isExclusive flag then (m, inr ErrExist) else (m, inl f)
  | None =>
      let l := alloc (heap m) in
      let f := mkFile (Base (clean path)) l 0 flag mode now false in
      let m1 := mkMemory (<[clean path := f]> (files m)) (<[l := mkContent []]> (heap m)) in
      (createParent (S (String.length (clean path))) m1 (clean path) (Perm mode) now, inl f)
  end.

(** Modelled from the spec: [storage.Children] (the storage file is
    missing); "returns all Entries whose path's immediate parent equals
    path". *)
Definition Children (m : Memory) (path : string) : list file :=
  (List.filter (fun kv => bool_decide (parent kv.1 = Some (clean path)))
               (map_to_list (files m))).*2.

(** ** The filesystem: [Memory] *)

(** [Memory.resolveLink]. *)
Definition resolveLink (m : Memory) (fullpath : string) (f : file) : string * bool :=
  if negb (isSymlink (mode f)) then (fullpath, false)
  else
    let target := string_of_list_byte (bytes (deref (heap m) (fcontent f))) in
    let target := if negb (isAbs target) then Join [Dir fullpath; target] else target in
    (target, true).

(** The end of [Memory.OpenFile], once the Entry [f] is at hand. *)
Definition open_entry (m : Memory) (f : file) (filename : string) (flag perm : Z)
    (now : Time) : Memory * (file + error) :=
  if IsDir (mode f)
  then (m, inr (errorString ("cannot open directory: " ++ filename)))
  else
    let '(new, h') := Duplicate f (heap m) filename perm flag now in
    (mkMemory (files m) h', inl new).

(** [Memory.OpenFile].  The recursion on the target of a symlink has no
    bound in the source; [fuel] bounds its depth here and [None] stands for
    a run that needs more. *)
Fixpoint OpenFile (fuel : nat) (m : Memory) (filename : string) (flag perm : Z)
    (now : Time) : option (Memory * (file + error)) :=
  match fuel with
  | O => None
  | S k =>
      match Get m filename with
      | None =>
          if negb (isCreate flag) then Some (m, inr ErrNotExist)
          else
            match New m filename perm flag now with
            | (m', inr err) => Some (m', inr err)
            | (m', inl f) => Some (open_entry m' f filename flag perm now)
            end
      | Some f =>
          if isExclusive flag then Some (m, inr ErrExist)
          else
            let '(target, isLink) := resolveLink m filename f in
            if isLink then OpenFile k m target flag perm now
            else Some (open_entry m f filename flag perm now)
      end
  end.

Definition Create (fuel : nat) (m : Memory) (filename : string) (now : Time) :=
  OpenFile fuel m filename (Z.lor (Z.lor O_RDWR O_CREATE) O_TRUNC) 438 now.

Definition Open (fuel : nat) (m : Memory) (filename : string) (now : Time) :=
  OpenFile fuel m filename O_RDONLY 0 now.

(** [Memory.Stat]; [fuel] as in [OpenFile]. *)
Fixpoint Stat (fuel : nat) (m : Memory) (filename : string) : option (fileInfo + error) :=
  match fuel with
  | O => None
  | S k =>
      match Get m filename with
      | None => Some (inr ErrNotExist)
      | Some f =>
          let fi := fst (file_Stat f (heap m)) in
          let '(target, isLink) := resolveLink m filename f in
          if isLink then
            match Stat k m target with
            | None => None
            | Some (inr err) => Some (inr err)
            | Some (inl fi') => Some (inl (set_fi_name fi' (Base filename)))
            end
          else Some (inl (set_fi_name fi (Base filename)))
      end
  end.

(** [Memory.Lstat]. *)
Definition Lstat (m : Memory) (filename : string) : fileInfo + error :=
  match Get m filename with
  | None => inr ErrNotExist
  | Some f => inl (fst (file_Stat f (heap m)))
  end.

(** [ByName.Less], and the order [sort.Sort] leaves the slice in: no
    element is [Less] than the one before it. *)
Definition ByName_Less (a b : fileInfo) : bool := String.ltb (fi_name a) (fi_name b).
Definition ByName_le (a b : fileInfo) : Prop := ByName_Less b a = false.

#[local] Instance ByName_le_dec a b : Decision (ByName_le a b).
Proof. unfold ByName_le. apply _. Defined.

(** [sort.Sort(ByName(entries))]. *)
Definition sort_ByName (entries : list fileInfo) : list fileInfo :=
  merge_sort ByName_le entries.

(** [Memory.ReadDir]; [fuel] as in [OpenFile]. *)
Fixpoint ReadDir (fuel : nat) (m : Memory) (path : string)
  : option (list fileInfo + error) :=
  match fuel with
  | O => None
  | S k =>
      match Get m path with
      | Some f =>
          let '(target, isLink) := resolveLink m path f in
          if isLink then ReadDir k m target
          else Some (inl (sort_ByName
                            (List.map (fun c => fst (file_Stat c (heap m))) (Children m path))))
      | None => Some (inr (PathError "open" path ENOENT))
      end
  end.

(** [Memory.MkdirAll]. *)
Definition MkdirAll (m : Memory) (path : string) (perm : Z) (now : Time)
  : Memory * option error :=
  match New m path (Z.lor perm ModeDir) 0 now with
  | (m', inl _) => (m', None)
  | (m', inr err) => (m', Some err)
  end.

(** [Memory.Readlink]. *)
Definition Readlink (m : Memory) (link : string) : string + error :=
  match Get m link with
  | None => inr ErrNotExist
  | Some f =>
      if negb (isSymlink (mode f))
      then inr (PathError "readlink" link (errorString "not a symlink"))
      else inl (string_of_list_byte (bytes (deref (heap m) (fcontent f))))
  end.

Section Symlink.
Context `{ContentIO}.

(** [util.WriteFile] of go-billy: open with
    [O_WRONLY|O_CREATE|O_TRUNC], write the data, close. *)
Definition WriteFile (fuel : nat) (m : Memory) (filename : string)
    (data : list Byte.byte) (perm : Z) (now : Time) : option (Memory * option error) :=
  match OpenFile fuel m filename (Z.lor (Z.lor O_WRONLY O_CREATE) O_TRUNC) perm now with
  | None => None
  | Some (m', inr err) => Some (m', Some err)
  | Some (m', inl f) =>
      let '(f1, h1, (n, err)) := Write f (heap m') data now in
      let err :=
        match err with
        | None => if n <? Z.of_nat (length data) then Some ErrShortWrite else None
        | Some _ => err
        end in
      let '(_, err1) := Close f1 in
      Some (mkMemory (files m') h1, match err with None => err1 | Some _ => err end)
  end.

(** [Memory.Symlink]. *)
Definition Symlink (fuel : nat) (m : Memory) (target link : string) (now : Time)
  : option (Memory * option error) :=
  match Stat fuel m link with
  | None => None
  | Some (inl _) => Some (m, Some ErrExist)
  | Some (inr err) =>
      if negb (IsNotExist err) then Some (m, Some err)
      else WriteFile fuel m link (list_byte_of_string target)
                     (Z.lor 511 ModeSymlink) now
  end.
End Symlink.

(** ** Package [file]: the native stat structure (linux, amd64) *)

Module file_unix.

Definition uint32 (z : Z) : Z := z mod 2 ^ 32.
Definition uint64 (z : Z) : Z := z mod 2 ^ 64.

(** [syscall.Timespec] and the fields of [syscall.Stat_t]: [Ino], [Nlink]
    and [Rdev] are [uint64], [Uid] and [Gid] are [uint32]. *)
Record Timespec : Type := mkTimespec { Sec : Z; Nsec : Z }.

Record Stat_t : Type := mkStat_t {
  st_Dev : Z;
  st_Ino : Z;
  st_Nlink : Z;
  st_Mode : Z;
  st_Uid : Z;
  st_Gid : Z;
  st_Rdev : Z;
  st_Size : Z;
  st_Atim : Timespec;
  st_Mtim : Timespec;
  st_Ctim : Timespec
}.

(** Modelled from the spec: the portable identity structure (its
    declaration is missing); "link-count, owner-uid, owner-gid,
    device-major, device-minor, inode, atime, ctime", under the field
    names [getOSFileInfo] assigns. *)
Record FileInfo : Type := mkFileInfo {
  Nlink : Z;
  UID : Z;
  GID : Z;
  Major : Z;
  Minor : Z;
  Fileid : Z;
  Atime : Time;
  Ctime : Time
}.

(** What [Sys()] of an [os.FileInfo] holds: nothing, a pointer to the
    native structure (the pointer itself may be nil), or a value of some
    other type. *)
Inductive Sys_value : Type :=
| Sys_nil
| Sys_Stat_t (p : option Stat_t)
| Sys_other.

Record os_FileInfo : Type := mkOsFileInfo {
  info_Name : string;
  info_Size : Z;
  info_Mode : Z;
  info_ModTime : Time;
  info_Sys : Sys_value
}.

(** [unix.Major] and [unix.Minor] of a linux device number. *)
Definition unix_Major (dev : Z) : Z :=
  let major := uint32 (Z.shiftr (Z.land dev 0xfff00) 8) in
  Z.lor major (uint32 (Z.shiftr (Z.land dev 0xfffff00000000000) 32)).

Definition unix_Minor (dev : Z) : Z :=
  let minor := uint32 (Z.shiftr (Z.land dev 0xff) 0) in
  Z.lor minor (uint32 (Z.shiftr (Z.land dev 0xffffff00000) 12)).

(** [unix.Mkdev]: the device number of a major and a minor number. *)
Definition unix_Mkdev (major minor : Z) : Z :=
  let dev := Z.shiftl (Z.land (uint64 major) 0xfff) 8 in
  let dev := Z.lor dev (Z.shiftl (Z.land (uint64 major) 0xfffff000) 32) in
  let dev := Z.lor dev (Z.shiftl (Z.land (uint64 minor) 0xff) 0) in
  Z.lor dev (Z.shiftl (Z.land (uint64 minor) 0xffffff00) 12).

(** [time.Unix]: a nanosecond count outside [0, 1e9) is carried into the
    seconds. *)
Definition time_Unix (sec nsec : Z) : Time :=
  if (nsec <? 0) || (1000000000 <=? nsec) then
    let n := Z.quot nsec 1000000000 in
    let sec := wrap64 (sec + n) in
    let nsec := nsec - n * 1000000000 in
    if nsec <? 0 then mkTime (wrap64 (sec - 1)) (nsec + 1000000000)
    else mkTime sec nsec
  else mkTime sec nsec.

(** [getOSFileInfo]. *)
Definition getOSFileInfo (info : os_FileInfo) : outcome (option FileInfo) :=
  match info_Sys info with
  | Sys_Stat_t (Some s) =>
      Returns (Some {|
        Nlink := uint32 (st_Nlink s);
        UID := st_Uid s;
        GID := st_Gid s;
        Major := unix_Major (uint64 (st_Rdev s));
        Minor := unix_Minor (uint64 (st_Rdev s));
        Fileid := st_Ino s;
        Atime := time_Unix (Sec (st_Atim s)) (Nsec (st_Atim s));
        Ctime := time_Unix (Sec (st_Ctim s)) (Nsec (st_Ctim s))
      |})
  | Sys_Stat_t None => Panics
  | Sys_nil | Sys_other => Returns None
  end.

End file_unix.

(** ** Concrete states used by the examples below *)

Definition t0 : Time := mkTime 0 0.
Definition t1 : Time := mkTime 1 0.

Definition hello : list Byte.byte := list_byte_of_string "hello".

(** One buffer holding [hello] and a Handle on it opened with flags [fl]. *)
Definition ex_heap : gmap loc content := {[ 0%nat := mkContent hello ]}.
Definition ex_handle (fl : Z) : file := mkFile "/f" 0%nat 0 fl 438 t0 false.

(** [links m p k q e]: following the symlinks from the path [p], as
    [resolveLink] reads them, reaches after [k] of them the path [q], whose
    Entry [e] is not a symlink. *)
Inductive links (m : Memory) : string -> nat -> string -> file -> Prop :=
| links_here (p : string) (f : file) :
    Get m p = Some f -> isSymlink (mode f) = false -> links m p 0 p f
| links_step (p : string) (f : file) (t : string) (k : nat) (q : string) (e : file) :
    Get m p = Some f -> resolveLink m p f = (t, true) ->
    links m t k q e -> links m p (S k) q e.

(** The error [OpenFile] gives for a directory. *)
Definition cannot_open_directory (filename : string) : error :=
  errorString ("cannot open directory: " ++ filename).



Definition empty_memory : Memory := mkMemory ∅ ∅.

(** [Symlink] on the buffer operations the spec describes, run to its end. *)
Definition run_Symlink (m : Memory) (target link : string) (now : Time) : Memory :=
  match @Symlink content_spec 4 m target link now with
  | Some (m', None) => m'
  | _ => m
  end.

(** [MkdirAll("/a/b")], [Create("/a/b/f.txt")], a write of [hello], then
    [Symlink("/a/b/f.txt", "/link")]. *)
Definition ex_tree : Memory :=
  let m1 := (MkdirAll empty_memory "/a/b" 493 t0).1 in
  match Create 1 m1 "/a/b/f.txt" t0 with
  | Some (m2, inl f) =>
      let '(_, h, _) := @Write content_spec f (heap m2) hello t0 in
      run_Symlink (mkMemory (files m2) h) "/a/b/f.txt" "/link" t0
  | _ => m1
  end.

(** [MkdirAll("/d")]. *)
Definition ex_dir : Memory := (MkdirAll empty_memory "/d" 493 t0).1.

(** [Symlink("/missing", "/b")] then [Symlink("/b", "/a")]: a chain of two
    symlinks that ends at no Entry. *)
Definition ex_chain : Memory :=
  run_Symlink (run_Symlink empty_memory "/missing" "/b" t0) "/b" "/a" t0.

(** [Symlink("/x", "/l")]: a symlink whose target does not exist. *)
Definition ex_dangling : Memory := run_Symlink empty_memory "/x" "/l" t0.

(** A native stat result: device 8:17, inode 42, two links, and one with
    [2 ^ 32] links. *)
Definition ex_stat (nlink : Z) : file_unix.Stat_t :=
  file_unix.mkStat_t 2049 42 nlink 33188 1000 1000 (file_unix.unix_Mkdev 8 17) 5
    (file_unix.mkTimespec 1700000000 123456789)
    (file_unix.mkTimespec 1700000001 0)
    (file_unix.mkTimespec 1700000002 999999999).

Definition ex_info (sys : file_unix.Sys_value) : file_unix.os_FileInfo :=
  file_unix.mkOsFileInfo "f" 5 33188 (mkTime 1700000001 0) sys.

(** ** The methods of [fileInfo] *)

Definition fileInfo_Name (fi : fileInfo) : string := fi_name fi.
Definition fileInfo_Size (fi : fileInfo) : Z := fi_size fi.
Definition fileInfo_Mode (fi : fileInfo) : Z := fi_mode fi.
Definition fileInfo_ModTime (fi : fileInfo) : Time := fi_mtime fi.
Definition fileInfo_IsDir (fi : fileInfo) : bool := IsDir (fi_mode fi).
Definition fileInfo_Sys (fi : fileInfo) : file_unix.Sys_value := file_unix.Sys_nil.

(** A [*fileInfo] seen through the interface [os.FileInfo]. *)
Definition as_os_FileInfo (fi : fileInfo) : file_unix.os_FileInfo :=
  file_unix.mkOsFileInfo (fileInfo_Name fi) (fileInfo_Size fi) (fileInfo_Mode fi)
    (fileInfo_ModTime fi) (fileInfo_Sys fi).

(** [Symlink("/b", "/a")] then [Symlink("/a", "/b")]: two symlinks that
    point at each other. *)
Definition ex_cycle : Memory :=
  run_Symlink (run_Symlink empty_memory "/b" "/a" t0) "/a" "/b" t0.

(** A second buffer beside the one of [ex_heap]. *)
Definition ex_heap2 : gmap loc content :=
  <[1%nat := mkContent (list_byte_of_string "other")]> ex_heap.

(** * Properties of Handles *)

Lemma wrap64_id (z : Z) : in_int64 z -> wrap64 z = z.
Proof.
  unfold in_int64, wrap64. intros Hz.
  rewrite Z.mod_small by lia. lia.
Qed.

Lemma deref_insert_eq (h : gmap loc content) (l : loc) (c : content) :
  deref (<[l := c]> h) l = c.
Proof. unfold deref. by rewrite lookup_insert_eq. Qed.

Lemma deref_insert_ne (h : gmap loc content) (l l' : loc) (c : content) :
  l <> l' -> deref (<[l := c]> h) l' = deref h l'.
Proof. intros Hne. unfold deref. by rewrite lookup_insert_ne. Qed.

Section HandleProperties.
Context {IO : ContentIO}.

(** X1: the first [Close] of an open Handle succeeds and marks it closed; the
    second one is refused. *)
Lemma Close_one_shot (f : file) :
  isClosed f = false ->
  Close f = (set_isClosed f true, None)
  /\ isClosed (Close f).1 = true
  /\ Close (Close f).1 = (set_isClosed f true, Some ErrClosed).
Proof.
  intros Hopen. unfold Close. rewrite Hopen. simpl. auto.
Qed.

(** X2: the operations that test [isClosed] refuse a closed Handle with
    [os.ErrClosed] and leave the buffer alone. *)
Lemma closed_handle_refused (f : file) (h : gmap loc content)
    (b p : list Byte.byte) (off offset whence : Z) (now : Time) :
  isClosed f = true ->
  ReadAt f h b off = (b, 0, Some ErrClosed)
  /\ (Read f h b).2 = (b, 0, Some ErrClosed)
  /\ WriteAt f h p off now = (f, h, (0, Some ErrClosed))
  /\ Write f h p now = (f, h, (0, Some ErrClosed))
  /\ Seek f h offset whence = (f, (0, Some ErrClosed))
  /\ Close f = (f, Some ErrClosed).
Proof.
  intros Hc. unfold Read, Write, ReadAt, WriteAt, Seek, Close.
  rewrite Hc. simpl. auto 10.
Qed.

(** C1 (the code departs from the claim): [Truncate] never looks at
    [isClosed]; on a closed Handle it returns no error and resizes the
    shared buffer to the requested size. *)
Theorem Truncate_on_closed_handle (f : file) (h : gmap loc content)
    (size : Z) (now : Time) :
  isClosed f = true -> 0 <= size ->
  exists h',
    Truncate f h size now = Returns (set_mtime f now, h', None)
    /\ content_Len (deref h' (fcontent f)) = size.
Proof.
  intros _ Hsize. unfold Truncate, content_Len.
  set (bs := bytes (deref h (fcontent f))).
  destruct (Z.ltb_spec size (Z.of_nat (length bs))) as [Hlt | Hge].
  - destruct (Z.ltb_spec size 0) as [Hneg | _]; [lia |].
    eexists. split; [reflexivity |].
    rewrite deref_insert_eq. simpl. rewrite length_take. lia.
  - destruct (Z.ltb_spec 0 (size - Z.of_nat (length bs))) as [Hmore | Hno].
    + eexists. split; [reflexivity |].
      rewrite deref_insert_eq. simpl.
      rewrite length_app, length_replicate. lia.
    + eexists. split; [reflexivity |]. fold bs. lia.
Qed.

(** Which flags pass the mode test of [ReadAt] and of [WriteAt]. *)
Lemma ReadAt_gate (f : file) (h : gmap loc content) (b : list Byte.byte) (off : Z) :
  isClosed f = false ->
  ReadAt f h b off =
    if isReadAndWrite (flag f) || isReadOnly (flag f)
    then content_ReadAt (deref h (fcontent f)) b off
    else (b, 0, Some (errorString "read not supported")).
Proof.
  intros Hopen. unfold ReadAt. rewrite Hopen.
  destruct (isReadAndWrite (flag f)), (isReadOnly (flag f)); reflexivity.
Qed.

Lemma WriteAt_gate (f : file) (h : gmap loc content) (p : list Byte.byte) (off : Z)
    (now : Time) :
  isClosed f = false ->
  WriteAt f h p off now =
    if isReadAndWrite (flag f) || isWriteOnly (flag f)
    then
      let '(c', n, err) := content_WriteAt (deref h (fcontent f)) p off in
      (set_mtime (set_position f (wrap64 (off + n))) now,
       <[fcontent f := c']> h, (n, err))
    else (f, h, (0, Some (errorString "write not supported"))).
Proof.
  intros Hopen. unfold WriteAt. rewrite Hopen.
  destruct (isReadAndWrite (flag f)), (isWriteOnly (flag f)); reflexivity.
Qed.


(** The flag words meant: [O_RDONLY] joined to one of the other flags has
    neither access bit and is not the word [O_RDONLY]. *)
Lemma O_RDONLY_with_other_flag (extra : Z) :
  In extra [O_CREATE; O_EXCL; O_TRUNC; O_APPEND] ->
  isWriteOnly (Z.lor O_RDONLY extra) = false
  /\ isReadAndWrite (Z.lor O_RDONLY extra) = false
  /\ Z.lor O_RDONLY extra <> O_RDONLY.
Proof.
  simpl. intros [<- | [<- | [<- | [<- | []]]]]; repeat split; discriminate.
Qed.

(** C2 (the code departs from the claim): [isReadOnly] compares the whole
    flag word with [O_RDONLY], so a Handle opened with [O_RDONLY] joined
    to other flags ([O_CREATE], [O_EXCL], [O_TRUNC], [O_APPEND]: neither
    access bit set, the word not [O_RDONLY] itself) is refused its reads
    with the unsupported-operation error, as it is its writes. *)
Theorem O_RDONLY_with_other_flags_cannot_read (f : file) (h : gmap loc content)
    (b p : list Byte.byte) (off : Z) (now : Time) :
  isClosed f = false ->
  isWriteOnly (flag f) = false ->
  isReadAndWrite (flag f) = false ->
  flag f <> O_RDONLY ->
  ReadAt f h b off = (b, 0, Some (errorString "read not supported"))
  /\ (Read f h b).2 = (b, 0, Some (errorString "read not supported"))
  /\ WriteAt f h p off now = (f, h, (0, Some (errorString "write not supported"))).
Proof.
  intros Hopen Hwo Hrw Hflag.
  assert (Hro : isReadOnly (flag f) = false).
  { unfold isReadOnly. by destruct (Z.eqb_spec (flag f) O_RDONLY). }
  assert (HR : forall o : Z,
             ReadAt f h b o = (b, 0, Some (errorString "read not supported"))).
  { intros o. rewrite ReadAt_gate by assumption. rewrite Hrw, Hro. reflexivity. }
  split; [apply HR |]. split.
  - unfold Read. rewrite HR. reflexivity.
  - rewrite WriteAt_gate by assumption. rewrite Hrw, Hwo. reflexivity.
Qed.


(** C8: on an open readable Handle [Read] is the read of the buffer at the
    current position; the position advances by the count returned (in
    64-bit arithmetic); an end-of-data signal that comes with bytes is
    turned into a nil error, any other result is passed on, so [Read]
    reports end-of-data only with a count of zero. *)
Theorem Read_advances_and_masks_EOF (f : file) (h : gmap loc content)
    (b b' : list Byte.byte) (n : Z) (err : option error) :
  isClosed f = false ->
  isReadAndWrite (flag f) || isReadOnly (flag f) = true ->
  content_ReadAt (deref h (fcontent f)) b (position f) = (b', n, err) ->
  ReadAt f h b (position f) = (b', n, err)
  /\ exists err',
      Read f h b = (set_position f (wrap64 (position f + n)), (b', n, err'))
      /\ (in_int64 (position f + n) -> position (Read f h b).1 = position f + n)
      /\ (err = Some EOF -> n <> 0 -> err' = None)
      /\ (err <> Some EOF \/ n = 0 -> err' = err)
      /\ (err' = Some EOF -> n = 0).
Proof.
  intros Hopen Hmode Hread.
  assert (HR : ReadAt f h b (position f) = (b', n, err)).
  { rewrite ReadAt_gate by assumption. rewrite Hmode. exact Hread. }
  split; [exact HR |].
  unfold Read. rewrite HR.
  assert (Hpos : in_int64 (position f + n) ->
                 position (set_position f (wrap64 (position f + n))) = position f + n).
  { intros Hin. simpl. by apply wrap64_id. }
  destruct (Z.eqb_spec n 0) as [Hz | Hnz].
  - exists err. split; [destruct err as [[] |]; reflexivity |].
    split; [exact Hpos |].
    split; [intros _ Hn; contradiction |].
    split; [reflexivity |]. intros _. exact Hz.
  - destruct err as [e |].
    + destruct e;
        try (eexists; split; [reflexivity |];
             split; [exact Hpos |];
             split; [discriminate |];
             split; [reflexivity | discriminate]).
      exists None. split; [reflexivity |].
      split; [exact Hpos |].
      split; [reflexivity |].
      split; [intros [Hc | Hc]; congruence | discriminate].
    + exists None. split; [reflexivity |].
      split; [exact Hpos |].
      split; [reflexivity |].
      split; [reflexivity | discriminate].
Qed.

(** C10: on an open writable Handle [WriteAt] at [off] leaves the position
    at [off] plus the count written (in 64-bit arithmetic) and the mtime
    at the current time, so the next [Write] and [Read] start there; and
    [Write] goes to the position a [Seek] has set, also on an [O_APPEND]
    Handle, whose buffer is then written at that offset and not at its
    end. *)
Theorem WriteAt_moves_position (f : file) (h : gmap loc content)
    (p : list Byte.byte) (off : Z) (now : Time) (c' : content) (n : Z)
    (err : option error) :
  isClosed f = false ->
  isReadAndWrite (flag f) || isWriteOnly (flag f) = true ->
  content_WriteAt (deref h (fcontent f)) p off = (c', n, err) ->
  exists f',
    WriteAt f h p off now = (f', <[fcontent f := c']> h, (n, err))
    /\ position f' = wrap64 (off + n)
    /\ (in_int64 (off + n) -> position f' = off + n)
    /\ mtime f' = now
    /\ (forall (h' : gmap loc content) (q : list Byte.byte) (now' : Time),
          Write f' h' q now' = WriteAt f' h' q (wrap64 (off + n)) now')
    /\ (forall (h' : gmap loc content) (b : list Byte.byte),
          (Read f' h' b).2 .1 = (ReadAt f' h' b (wrap64 (off + n))).1)
    /\ (forall (offset : Z) (q : list Byte.byte) (now' : Time),
          isAppend (flag f) = true ->
          Seek f h offset SeekStart = (set_position f offset, (offset, None))
          /\ Write (set_position f offset) h q now'
             = WriteAt (set_position f offset) h q offset now'
          /\ (Write (set_position f offset) h q now').1.2
             = <[fcontent f := (content_WriteAt (deref h (fcontent f)) q offset).1.1]> h).
Proof.
  intros Hopen Hmode Hwrite.
  exists (set_mtime (set_position f (wrap64 (off + n))) now).
  split.
  { rewrite WriteAt_gate by assumption. rewrite Hmode, Hwrite. reflexivity. }
  split; [reflexivity |].
  split; [intros Hin; simpl; by apply wrap64_id |].
  split; [reflexivity |].
  split; [reflexivity |].
  split.
  { intros h' b. unfold Read. simpl.
    destruct (ReadAt _ h' b (wrap64 (off + n))) as [[b2 n2] e2]. reflexivity. }
  intros offset q now' _.
  split; [unfold Seek; rewrite Hopen; reflexivity |].
  split; [reflexivity |].
  unfold Write. rewrite WriteAt_gate by exact Hopen. simpl. rewrite Hmode.
  destruct (content_WriteAt (deref h (fcontent f)) q offset) as [[c2 n2] e2].
  reflexivity.
Qed.
End HandleProperties.

(** ** The same on the buffer operations the spec describes *)

Lemma Truncate_on_closed_handle_witness :
  isClosed (set_isClosed (ex_handle O_RDWR) true) = true
  /\ exists h',
      Truncate (set_isClosed (ex_handle O_RDWR) true) ex_heap 2 t1
      = Returns (set_mtime (set_isClosed (ex_handle O_RDWR) true) t1, h', None)
      /\ content_Len (deref h' 0%nat) = 2.
Proof.
  split; [reflexivity |].
  apply (Truncate_on_closed_handle (set_isClosed (ex_handle O_RDWR) true) ex_heap 2 t1);
    [reflexivity | lia].
Defined.

Lemma O_RDONLY_with_other_flags_cannot_read_witness :
  @ReadAt content_spec (ex_handle (Z.lor O_RDONLY O_CREATE)) ex_heap [x00] 0
    = ([x00], 0, Some (errorString "read not supported"))
  /\ (@Read content_spec (ex_handle (Z.lor O_RDONLY O_CREATE)) ex_heap [x00]).2
    = ([x00], 0, Some (errorString "read not supported"))
  /\ @WriteAt content_spec (ex_handle (Z.lor O_RDONLY O_CREATE)) ex_heap [x00] 0 t1
    = (ex_handle (Z.lor O_RDONLY O_CREATE), ex_heap,
       (0, Some (errorString "write not supported"))).
Proof.
  apply (@O_RDONLY_with_other_flags_cannot_read content_spec
           (ex_handle (Z.lor O_RDONLY O_CREATE)) ex_heap [x00] [x00] 0 t1);
    [reflexivity | reflexivity | reflexivity | discriminate].
Defined.


(** A destination of eight bytes on the five of [hello]: the first [Read]
    gives the five bytes and no error, the second one end-of-data. *)
Lemma Read_advances_and_masks_EOF_witness :
  let f := ex_handle O_RDONLY in
  let b := replicate 8 x00 in
  @ReadAt content_spec f ex_heap b 0 = ((hello ++ replicate 3 x00)%list, 5, Some EOF)
  /\ exists err',
      @Read content_spec f ex_heap b
      = (set_position f 5, ((hello ++ replicate 3 x00)%list, 5, err'))
      /\ (in_int64 5 -> position (@Read content_spec f ex_heap b).1 = 5)
      /\ (Some EOF = Some EOF -> 5 <> 0 -> err' = None)
      /\ (Some EOF <> Some EOF \/ 5 = 0 -> err' = Some EOF)
      /\ (err' = Some EOF -> 5 = 0).
Proof.
  apply (@Read_advances_and_masks_EOF content_spec (ex_handle O_RDONLY) ex_heap
           (replicate 8 x00) (hello ++ replicate 3 x00)%list 5 (Some EOF));
    reflexivity.
Defined.

Example Read_twice_on_hello :
  let f := ex_handle O_RDONLY in
  let b := replicate 8 x00 in
  (@Read content_spec f ex_heap b).2 = ((hello ++ replicate 3 x00)%list, 5, None)
  /\ (@Read content_spec (@Read content_spec f ex_heap b).1 ex_heap b).2
     = (b, 0, Some EOF).
Proof. split; reflexivity. Qed.

(** An [O_APPEND] Handle on [hello], positioned at the end as [Duplicate]
    leaves it. *)
Lemma WriteAt_moves_position_witness :
  let f := set_position (ex_handle (Z.lor O_WRONLY O_APPEND)) 5 in
  let X := list_byte_of_string "X" in
  exists f',
    @WriteAt content_spec f ex_heap X 1 t1
    = (f', <[0%nat := mkContent (list_byte_of_string "hXllo")]> ex_heap, (1, None))
    /\ position f' = 2
    /\ (in_int64 (1 + 1) -> position f' = 1 + 1)
    /\ mtime f' = t1
    /\ (forall (h' : gmap loc content) (q : list Byte.byte) (now' : Time),
          @Write content_spec f' h' q now' = @WriteAt content_spec f' h' q 2 now')
    /\ (forall (h' : gmap loc content) (b : list Byte.byte),
          (@Read content_spec f' h' b).2 .1 = (@ReadAt content_spec f' h' b 2).1)
    /\ (forall (offset : Z) (q : list Byte.byte) (now' : Time),
          isAppend (flag f) = true ->
          Seek f ex_heap offset SeekStart
          = (set_position f offset, (offset, None))
          /\ @Write content_spec (set_position f offset) ex_heap q now'
             = @WriteAt content_spec (set_position f offset) ex_heap q offset now'
          /\ (@Write content_spec (set_position f offset) ex_heap q now').1.2
             = <[0%nat := (spec_WriteAt (mkContent hello) q offset).1.1]> ex_heap).
Proof.
  apply (@WriteAt_moves_position content_spec
           (set_position (ex_handle (Z.lor O_WRONLY O_APPEND)) 5) ex_heap
           (list_byte_of_string "X") 1 t1
           (mkContent (list_byte_of_string "hXllo")) 1 None); reflexivity.
Defined.

Example Write_after_Seek_on_O_APPEND :
  let f := set_position (ex_handle (Z.lor O_WRONLY O_APPEND)) 5 in
  let g := (Seek f ex_heap 0 SeekStart).1 in
  position g = 0
  /\ bytes (deref (@Write content_spec g ex_heap (list_byte_of_string "X") t1).1.2 0%nat)
     = list_byte_of_string "Xello".
Proof. split; reflexivity. Qed.

(** * Properties of the filesystem *)

(** The path functions on the paths the examples use. *)
Example Clean_examples :
  List.map Clean [EmptyString; "/"; "a/b/../c"; "/../a"; "a//b/"; "../a"; "/a/./b/.."]
  = ["."; "/"; "a/c"; "/a"; "a/b"; "../a"; "/a"].
Proof. reflexivity. Qed.

Example Dir_Base_examples :
  List.map Dir ["/link"; "/a/b/f.txt"; "/"; "f.txt"] = ["/"; "/a/b"; "/"; "."]
  /\ List.map Base ["/link"; "/a/b/f.txt"; "/"; "/a/b/"] = ["link"; "f.txt"; "/"; "b"]
  /\ Join ["/a/b"; "../c"] = "/a/c".
Proof. repeat split. Qed.

(** The scenario of the spec: after [MkdirAll("/a/b")], [Create] and a write
    of five bytes, [Stat] reports size 5 and [ReadDir("/a/b")] one entry
    named [f.txt]. *)
Example scenario_Stat_ReadDir :
  (exists fi : fileInfo,
     Stat 1 ex_tree "/a/b/f.txt" = Some (inl fi) /\ fi_size fi = 5)
  /\ (exists fi : fileInfo,
        ReadDir 1 ex_tree "/a/b" = Some (inl [fi]) /\ fi_name fi = "f.txt").
Proof.
  split; eexists; (split; [vm_compute; reflexivity | reflexivity]).
Qed.

Lemma resolveLink_not_symlink (m : Memory) (p : string) (f : file) :
  isSymlink (mode f) = false -> resolveLink m p f = (p, false).
Proof. intros Hs. unfold resolveLink. rewrite Hs. reflexivity. Qed.

Lemma resolveLink_true (m : Memory) (p t : string) (f : file) :
  resolveLink m p f = (t, true) -> isSymlink (mode f) = true.
Proof.
  unfold resolveLink. destruct (isSymlink (mode f)); simpl; congruence.
Qed.

Lemma open_entry_directory (m : Memory) (f : file) (filename : string)
    (flag perm : Z) (now : Time) :
  IsDir (mode f) = true ->
  open_entry m f filename flag perm now = (m, inr (cannot_open_directory filename)).
Proof. intros Hd. unfold open_entry. rewrite Hd. reflexivity. Qed.

(** [OpenFile] along a chain of symlinks that ends at a directory. *)
Lemma OpenFile_links_directory (m : Memory) (flag perm : Z) (now : Time)
    (p : string) (k : nat) (q : string) (d : file) :
  links m p k q d -> IsDir (mode d) = true -> isExclusive flag = false ->
  forall fuel : nat, (k < fuel)%nat ->
    OpenFile fuel m p flag perm now = Some (m, inr (cannot_open_directory q)).
Proof.
  intros Hl Hd Hx. induction Hl as [p f Hget Hs | p f t k q e Hget Hres Hl IH];
    intros fuel Hfuel.
  - destruct fuel as [| fuel]; [lia |]. simpl.
    rewrite Hget, Hx, (resolveLink_not_symlink _ _ _ Hs).
    by rewrite open_entry_directory.
  - destruct fuel as [| fuel]; [lia |]. simpl.
    rewrite Hget, Hx, Hres. apply IH; [exact Hd | lia].
Qed.

(** C3 (as amended): with no Entry at the path and no [O_CREATE],
    [OpenFile] fails with [os.ErrNotExist]; with an Entry at the path and
    [O_EXCL], it fails with [os.ErrExist]; without [O_EXCL], when the
    symlinks from the path lead to a directory, it fails with the
    cannot-open-directory error for the path reached.  In each case the
    result is an error, no Handle, and the filesystem is unchanged. *)
Theorem OpenFile_failure_cases (m : Memory) (path : string) (flag perm : Z)
    (now : Time) :
  (Get m path = None -> isCreate flag = false ->
     forall fuel : nat,
       OpenFile (S fuel) m path flag perm now = Some (m, inr ErrNotExist))
  /\ (forall f : file, Get m path = Some f -> isExclusive flag = true ->
     forall fuel : nat,
       OpenFile (S fuel) m path flag perm now = Some (m, inr ErrExist))
  /\ (forall (k : nat) (q : string) (d : file),
     links m path k q d -> IsDir (mode d) = true -> isExclusive flag = false ->
     forall fuel : nat, (k < fuel)%nat ->
       OpenFile fuel m path flag perm now = Some (m, inr (cannot_open_directory q))).
Proof.
  split; [| split].
  - intros Hget Hc fuel. simpl. rewrite Hget, Hc. reflexivity.
  - intros f Hget Hx fuel. simpl. rewrite Hget, Hx. reflexivity.
  - intros k q d Hl Hd Hx fuel Hfuel.
    by apply (OpenFile_links_directory m flag perm now path k q d).
Qed.

Lemma ex_dir_links : exists d : file, links ex_dir "/d" 0 "/d" d /\ IsDir (mode d) = true.
Proof.
  eexists. split.
  - apply links_here.
    + vm_compute. reflexivity.
    + vm_compute. reflexivity.
  - vm_compute. reflexivity.
Qed.

Lemma OpenFile_failure_cases_witness :
  OpenFile 1 ex_dir "/nothing" O_RDWR 0 t1 = Some (ex_dir, inr ErrNotExist)
  /\ OpenFile 1 ex_dir "/d" (Z.lor O_CREATE O_EXCL) 420 t1 = Some (ex_dir, inr ErrExist)
  /\ OpenFile 1 ex_dir "/d" O_RDONLY 0 t1
     = Some (ex_dir, inr (cannot_open_directory "/d")).
Proof.
  destruct (OpenFile_failure_cases ex_dir "/nothing" O_RDWR 0 t1) as (H1 & _ & _).
  destruct (OpenFile_failure_cases ex_dir "/d" (Z.lor O_CREATE O_EXCL) 420 t1)
    as (_ & H2 & _).
  destruct (OpenFile_failure_cases ex_dir "/d" O_RDONLY 0 t1) as (_ & _ & H3).
  destruct ex_dir_links as (d & Hl & Hd).
  assert (Hget : Get ex_dir "/d" = Some d) by (inversion Hl; assumption).
  split; [apply (H1 eq_refl eq_refl 0%nat) |].
  split; [apply (H2 d Hget eq_refl 0%nat) |].
  apply (H3 0%nat "/d" d Hl Hd eq_refl 1%nat). lia.
Defined.

(** C3 (as stated) fails: the existing directory [/d] opened with [O_EXCL]
    is refused with [os.ErrExist], which is not the directory error. *)
Lemma OpenFile_O_EXCL_on_directory :
  (exists d : file,
     Get ex_dir "/d" = Some d /\ isSymlink (mode d) = false /\ IsDir (mode d) = true)
  /\ (forall fuel : nat,
        OpenFile (S fuel) ex_dir "/d" O_EXCL 0 t1 = Some (ex_dir, inr ErrExist))
  /\ (forall filename : string, ErrExist <> cannot_open_directory filename).
Proof.
  split; [| split].
  - eexists. split; [vm_compute; reflexivity |].
    split; vm_compute; reflexivity.
  - intros fuel. vm_compute. reflexivity.
  - intros filename. discriminate.
Qed.

(** C4 (as amended): when the symlinks from the queried path lead to an
    Entry that is not a symlink, [Stat] succeeds; the name it reports is
    the base name of the queried path, and the size, mode and mtime are
    those of the Entry reached. *)
Theorem Stat_follows_links (m : Memory) (path : string) (k : nat) (q : string)
    (e : file) :
  links m path k q e ->
  forall fuel : nat, (k < fuel)%nat ->
    Stat fuel m path
    = Some (inl (mkFileInfo (Base path) (content_Len (deref (heap m) (fcontent e)))
                            (mode e) (mtime e))).
Proof.
  intros Hl. induction Hl as [p f Hget Hs | p f t k q e Hget Hres Hl IH];
    intros fuel Hfuel.
  - destruct fuel as [| fuel]; [lia |]. simpl.
    rewrite Hget, (resolveLink_not_symlink _ _ _ Hs). reflexivity.
  - destruct fuel as [| fuel]; [lia |]. simpl.
    rewrite Hget, Hres, (IH fuel) by lia. reflexivity.
Qed.

Lemma ex_tree_links :
  exists e : file,
    links ex_tree "/link" 1 "/a/b/f.txt" e
    /\ content_Len (deref (heap ex_tree) (fcontent e)) = 5
    /\ mode e = 438.
Proof.
  eexists. split.
  - eapply links_step.
    + vm_compute. reflexivity.
    + vm_compute. reflexivity.
    + apply links_here.
      * vm_compute. reflexivity.
      * vm_compute. reflexivity.
  - split; vm_compute; reflexivity.
Qed.

(** The scenario of the claim: [Stat("/link")] reports the five bytes of
    the target and the name [link]. *)
Lemma Stat_follows_links_witness :
  exists fi : fileInfo,
    Stat 2 ex_tree "/link" = Some (inl fi)
    /\ fi_name fi = "link" /\ fi_size fi = 5 /\ fi_mode fi = 438.
Proof.
  destruct ex_tree_links as (e & Hl & Hsize & Hmode).
  eexists. split.
  - apply (Stat_follows_links ex_tree "/link" 1 "/a/b/f.txt" e Hl 2%nat). lia.
  - simpl. rewrite Hsize, Hmode. repeat split.
Defined.

Example Lstat_link_size :
  exists fi : fileInfo,
    Lstat ex_tree "/link" = inl fi
    /\ fi_size fi = Z.of_nat (String.length "/a/b/f.txt").
Proof. eexists. split; vm_compute; reflexivity. Qed.

(** C4 (as stated) fails: the Entry at [/a] exists and is a symlink to the
    existing Entry at [/b], itself a symlink to nothing; [Stat("/a")] gives
    [os.ErrNotExist] and never an info. *)
Lemma Stat_chain_to_nothing :
  (exists a b : file,
     Get ex_chain "/a" = Some a /\ resolveLink ex_chain "/a" a = ("/b", true)
     /\ Get ex_chain "/b" = Some b)
  /\ Stat 3 ex_chain "/a" = Some (inr ErrNotExist)
  /\ (forall fuel : nat,
        Stat fuel ex_chain "/a" = None
        \/ Stat fuel ex_chain "/a" = Some (inr ErrNotExist)).
Proof.
  split; [| split].
  - do 2 eexists. split; [vm_compute; reflexivity |].
    split; [vm_compute; reflexivity |]. vm_compute. reflexivity.
  - vm_compute. reflexivity.
  - intros [| [| [| fuel]]]; [left | left | left | right]; vm_compute; reflexivity.
Qed.

(** ** Symlink and Readlink *)

Lemma createParent_keeps (n : nat) (m : Memory) (p : string) (perm : Z) (now : Time)
    (k : string) (f : file) :
  files m !! k = Some f -> files (createParent n m p perm now) !! k = Some f.
Proof.
  revert m p. induction n as [| n IH]; intros m p Hk; simpl; [exact Hk |].
  destruct (parent p) as [d |]; [| exact Hk].
  destruct (files m !! d) eqn:Hd; apply IH; [exact Hk |].
  simpl. rewrite lookup_insert_ne; [exact Hk |]. congruence.
Qed.

(** X23: [Symlink] refuses a link path that [Stat] resolves, and changes
    nothing. *)
Lemma Symlink_existing `{ContentIO} (fuel : nat) (m : Memory) (target link : string)
    (now : Time) (fi : fileInfo) :
  Stat fuel m link = Some (inl fi) ->
  Symlink fuel m target link now = Some (m, Some ErrExist).
Proof. intros Hs. unfold Symlink. rewrite Hs. reflexivity. Qed.

(** [util.WriteFile] on a path that holds no Entry creates the Entry with
    the mode asked for and leaves the data in its buffer. *)
Lemma WriteFile_fresh (fuel : nat) (m : Memory) (filename : string)
    (data : list Byte.byte) (perm : Z) (now : Time) :
  Get m filename = None -> IsDir perm = false ->
  exists (m' : Memory) (f : file),
    @WriteFile content_spec (S fuel) m filename data perm now = Some (m', None)
    /\ Get m' filename = Some f
    /\ mode f = perm
    /\ bytes (deref (heap m') (fcontent f)) = data.
Proof.
  intros Hget Hdir. unfold WriteFile. simpl OpenFile. rewrite Hget.
  change (isCreate (Z.lor (Z.lor O_WRONLY O_CREATE) O_TRUNC)) with true. simpl negb.
  unfold New. unfold Get in Hget. rewrite Hget.
  set (l := alloc (heap m)).
  set (flag := Z.lor (Z.lor O_WRONLY O_CREATE) O_TRUNC).
  set (f := mkFile (Base (clean filename)) l 0 flag perm now false).
  set (m1 := createParent _ _ _ _ _).
  unfold open_entry. simpl mode. rewrite Hdir.
  unfold Duplicate.
  change (isTruncate flag) with true. change (isAppend flag) with false.
  cbv iota. simpl fcontent.
  unfold Write, WriteAt. simpl.
  change (has_bit flag O_RDWR) with false.
  change (has_bit flag O_WRONLY) with true. simpl.
  rewrite deref_insert_eq. unfold spec_WriteAt. simpl.
  rewrite drop_nil, app_nil_r, Z.ltb_irrefl.
  do 2 eexists. split; [reflexivity |].
  split; [| split].
  - unfold Get. simpl. apply createParent_keeps. simpl. apply lookup_insert_eq.
  - reflexivity.
  - simpl. by rewrite deref_insert_eq.
Qed.

(** X24: on a link path that holds no Entry, [Symlink] succeeds and [Readlink]
    then gives back the target, byte for byte. *)
Lemma Symlink_Readlink_fresh (fuel : nat) (m : Memory) (target link : string)
    (now : Time) :
  Get m link = None ->
  exists m' : Memory,
    @Symlink content_spec (S fuel) m target link now = Some (m', None)
    /\ Readlink m' link = inl target.
Proof.
  intros Hget.
  destruct (WriteFile_fresh fuel m link (list_byte_of_string target)
              (Z.lor 511 ModeSymlink) now Hget eq_refl) as (m' & f & HW & Hg & Hm & Hb).
  exists m'. split.
  - unfold Symlink. simpl Stat. rewrite Hget. simpl. exact HW.
  - unfold Readlink. rewrite Hg, Hm, Hb.
    change (isSymlink (Z.lor 511 ModeSymlink)) with true. simpl.
    by rewrite string_of_list_byte_of_string.
Qed.

(** C5 (the code departs from the claim): [/l] is a symlink to [/x], which
    does not exist, so [Stat("/l")] fails with [os.ErrNotExist];
    [Symlink("/y", "/l")] then returns no error, yet [Readlink("/l")]
    still gives [/x]: the write went through the old link and made [/x] a
    symlink to [/y]. *)
Theorem Symlink_over_dangling_link :
  (exists l : file, Get ex_dangling "/l" = Some l /\ isSymlink (mode l) = true)
  /\ Get ex_dangling "/x" = None
  /\ Stat 2 ex_dangling "/l" = Some (inr ErrNotExist)
  /\ exists m' : Memory,
      @Symlink content_spec 2 ex_dangling "/y" "/l" t1 = Some (m', None)
      /\ Readlink m' "/l" = inl "/x"
      /\ Readlink m' "/x" = inl "/y".
Proof.
  split; [eexists; split; [vm_compute; reflexivity |]; vm_compute; reflexivity |].
  split; [vm_compute; reflexivity |].
  split; [vm_compute; reflexivity |].
  eexists. split; [vm_compute; reflexivity |].
  split; vm_compute; reflexivity.
Qed.

(** ** ReadDir *)

(** The order of names: bytewise, as Go compares strings. *)
Lemma ByName_le_leb (a b : fileInfo) :
  ByName_le a b <-> String.leb (fi_name a) (fi_name b) = true.
Proof.
  unfold ByName_le, ByName_Less, String.ltb, String.leb.
  rewrite (String.compare_antisym (fi_name a) (fi_name b)).
  destruct (String.compare (fi_name b) (fi_name a)); simpl; split; congruence.
Qed.

#[local] Instance ByName_le_total : Total ByName_le.
Proof.
  intros a b. rewrite !ByName_le_leb. apply String.leb_total.
Qed.

#[local] Instance ByName_le_trans : Transitive ByName_le.
Proof.
  intros a b c. unfold ByName_le, ByName_Less, String.ltb.
  intros Hab Hbc.
  destruct (String.compare (fi_name c) (fi_name a)) eqn:Hca; try reflexivity.
  exfalso.
  apply OrderedTypeEx.String_as_OT.cmp_lt in Hca.
  destruct (String.compare (fi_name b) (fi_name a)) eqn:Hba.
  - apply String.compare_eq_iff in Hba. rewrite Hba in Hbc.
    apply OrderedTypeEx.String_as_OT.cmp_lt in Hca.
    unfold OrderedTypeEx.String_as_OT.cmp in Hca. rewrite Hca in Hbc. discriminate.
  - discriminate.
  - assert (Hlt : OrderedTypeEx.String_as_OT.lt (fi_name a) (fi_name b)).
    { apply OrderedTypeEx.String_as_OT.cmp_lt.
      unfold OrderedTypeEx.String_as_OT.cmp.
      rewrite String.compare_antisym, Hba. reflexivity. }
    pose proof (OrderedTypeEx.String_as_OT.lt_trans _ _ _ Hca Hlt) as Hcb.
    apply OrderedTypeEx.String_as_OT.cmp_lt in Hcb.
    unfold OrderedTypeEx.String_as_OT.cmp in Hcb. rewrite Hcb in Hbc. discriminate.
Qed.







(** * Properties of the native stat decoding *)

Section FileUnix.
Import file_unix.

Lemma time_Unix_normal (sec nsec : Z) :
  0 <= nsec < 1000000000 -> time_Unix sec nsec = mkTime sec nsec.
Proof.
  intros [Hlo Hhi]. unfold time_Unix.
  destruct (Z.ltb_spec nsec 0); [lia |].
  destruct (Z.leb_spec 1000000000 nsec); [lia |]. reflexivity.
Qed.

Lemma testbit_mask (width shift i : Z) :
  0 <= width -> 0 <= shift ->
  Z.testbit (Z.shiftl (Z.ones width) shift) i = (shift <=? i) && (i <? shift + width).
Proof.
  intros Hw Hs.
  destruct (Z.leb_spec shift i) as [Hle | Hlt].
  - rewrite Z.shiftl_spec, Z.testbit_ones_nonneg by lia. simpl.
    destruct (Z.ltb_spec (i - shift) width), (Z.ltb_spec i (shift + width));
      try lia; reflexivity.
  - destruct (Z.lt_ge_cases i 0).
    + rewrite Z.testbit_neg_r by lia. reflexivity.
    + rewrite Z.shiftl_spec, Z.testbit_neg_r by lia. reflexivity.
Qed.

Lemma testbit_uint32 (x i : Z) :
  0 <= i -> Z.testbit (uint32 x) i = (i <? 32) && Z.testbit x i.
Proof.
  intros Hi. unfold uint32.
  destruct (Z.ltb_spec i 32).
  - rewrite Z.mod_pow2_bits_low by lia. reflexivity.
  - rewrite Z.mod_pow2_bits_high by lia. reflexivity.
Qed.

Lemma testbit_small (x w i : Z) :
  0 <= x < 2 ^ w -> 0 <= w -> w <= i -> Z.testbit x i = false.
Proof.
  intros Hx Hw Hi. destruct (Z.eq_dec x 0) as [-> | Hnz]; [apply Z.bits_0 |].
  apply Z.bits_above_log2; [lia |].
  assert (Z.log2 x < w); [| lia]. apply Z.log2_lt_pow2; lia.
Qed.

Ltac split_comparisons :=
  repeat match goal with
         | |- context [?a <=? ?b] => destruct (Z.leb_spec a b); try lia
         | |- context [?a <? ?b] => destruct (Z.ltb_spec a b); try lia
         end.

(** [unix.Major] and [unix.Minor] give back the two numbers a device number
    was made of by [unix.Mkdev]. *)
Lemma Major_Minor_Mkdev (major minor : Z) :
  0 <= major < 2 ^ 32 -> 0 <= minor < 2 ^ 32 ->
  unix_Major (unix_Mkdev major minor) = major
  /\ unix_Minor (unix_Mkdev major minor) = minor.
Proof.
  intros HM Hm.
  unfold unix_Major, unix_Minor, unix_Mkdev, uint64.
  rewrite !(Z.mod_small _ (2 ^ 64)) by lia.
  change 0xfff00 with (Z.shiftl (Z.ones 12) 8).
  change 0xfffff00000000000 with (Z.shiftl (Z.ones 20) 44).
  change 0xff with (Z.shiftl (Z.ones 8) 0).
  change 0xffffff00000 with (Z.shiftl (Z.ones 24) 20).
  change 0xfff with (Z.shiftl (Z.ones 12) 0).
  change 0xfffff000 with (Z.shiftl (Z.ones 20) 12).
  change 0xffffff00 with (Z.shiftl (Z.ones 24) 8).
  split; apply Z.bits_inj'; intros n Hn.
  - rewrite Z.lor_spec, !testbit_uint32, !Z.shiftr_spec, !Z.land_spec, !Z.lor_spec by lia.
    rewrite !testbit_mask by lia.
    rewrite !Z.shiftl_spec by lia. rewrite !Z.land_spec.
    rewrite !testbit_mask by lia.
    replace (n + 8 - 8) with n by lia. replace (n + 32 - 32) with n by lia.
    destruct (Z.lt_ge_cases n 32) as [Hlt | Hge].
    + split_comparisons; btauto.
    + rewrite (testbit_small major 32 n) by lia.
      split_comparisons; btauto.
  - rewrite Z.lor_spec, !testbit_uint32, !Z.shiftr_spec, !Z.land_spec, !Z.lor_spec by lia.
    rewrite !testbit_mask by lia.
    rewrite !Z.shiftl_spec by lia. rewrite !Z.land_spec.
    rewrite !testbit_mask by lia.
    replace (n + 0 - 0) with n by lia. replace (n + 12 - 12) with n by lia.
    destruct (Z.lt_ge_cases n 32) as [Hlt | Hge].
    + split_comparisons; btauto.
    + rewrite (testbit_small minor 32 n) by lia.
      split_comparisons; btauto.
Qed.

(** A device number made by [unix.Mkdev] fits in 64 bits. *)
Lemma Mkdev_uint64 (major minor : Z) :
  0 <= major < 2 ^ 32 -> 0 <= minor < 2 ^ 32 ->
  uint64 (unix_Mkdev major minor) = unix_Mkdev major minor.
Proof.
  intros HM Hm. unfold uint64 at 1.
  apply Z.bits_inj'; intros n Hn.
  destruct (Z.lt_ge_cases n 64) as [Hlt | Hge].
  - rewrite Z.mod_pow2_bits_low by lia. reflexivity.
  - rewrite Z.mod_pow2_bits_high by lia. symmetry.
    unfold unix_Mkdev, uint64.
    rewrite !(Z.mod_small _ (2 ^ 64)) by lia.
    change 0xfff with (Z.shiftl (Z.ones 12) 0).
    change 0xfffff000 with (Z.shiftl (Z.ones 20) 12).
    change 0xff with (Z.shiftl (Z.ones 8) 0).
    change 0xffffff00 with (Z.shiftl (Z.ones 24) 8).
    rewrite !Z.lor_spec, !Z.shiftl_spec, !Z.land_spec by lia.
    rewrite !testbit_mask by lia.
    split_comparisons; btauto.
Qed.

(** C9 (as amended): when [Sys()] holds a non-nil pointer to the native
    structure, [getOSFileInfo] returns a structure whose uid, gid and
    inode are the native fields, whose link count is the native count
    reduced to 32 bits (the native count itself when below [2 ^ 32]),
    whose major and minor numbers are decoded from the device number, and
    whose access and change times are the instants of the native
    timespecs; when [Sys()] holds nothing or a value of another type it
    returns nil. *)
Theorem getOSFileInfo_cases (info : os_FileInfo) :
  (forall s : Stat_t, info_Sys info = Sys_Stat_t (Some s) ->
     exists fi : FileInfo,
       getOSFileInfo info = Returns (Some fi)
       /\ Nlink fi = st_Nlink s mod 2 ^ 32
       /\ (0 <= st_Nlink s < 2 ^ 32 -> Nlink fi = st_Nlink s)
       /\ UID fi = st_Uid s
       /\ GID fi = st_Gid s
       /\ (0 <= st_Rdev s < 2 ^ 64 ->
             Major fi = unix_Major (st_Rdev s) /\ Minor fi = unix_Minor (st_Rdev s))
       /\ (forall major minor : Z,
             0 <= major < 2 ^ 32 -> 0 <= minor < 2 ^ 32 ->
             st_Rdev s = unix_Mkdev major minor ->
             Major fi = major /\ Minor fi = minor)
       /\ Fileid fi = st_Ino s
       /\ Atime fi = time_Unix (Sec (st_Atim s)) (Nsec (st_Atim s))
       /\ Ctime fi = time_Unix (Sec (st_Ctim s)) (Nsec (st_Ctim s))
       /\ (0 <= Nsec (st_Atim s) < 1000000000 ->
             Atime fi = mkTime (Sec (st_Atim s)) (Nsec (st_Atim s)))
       /\ (0 <= Nsec (st_Ctim s) < 1000000000 ->
             Ctime fi = mkTime (Sec (st_Ctim s)) (Nsec (st_Ctim s))))
  /\ (info_Sys info = Sys_nil \/ info_Sys info = Sys_other ->
      getOSFileInfo info = Returns None).
Proof.
  split.
  - intros s Hs. unfold getOSFileInfo. rewrite Hs.
    eexists. split; [reflexivity |]. simpl.
    split; [reflexivity |].
    split; [intros Hn; unfold uint32; by rewrite Z.mod_small |].
    split; [reflexivity |]. split; [reflexivity |].
    split; [intros Hr; unfold uint64; by rewrite Z.mod_small |].
    split.
    { intros major minor HM Hm ->.
      rewrite Mkdev_uint64 by assumption. by apply Major_Minor_Mkdev. }
    split; [reflexivity |]. split; [reflexivity |]. split; [reflexivity |].
    split; apply time_Unix_normal.
  - intros [Hs | Hs]; unfold getOSFileInfo; rewrite Hs; reflexivity.
Qed.

Lemma getOSFileInfo_cases_witness :
  (exists fi : FileInfo,
     getOSFileInfo (ex_info (Sys_Stat_t (Some (ex_stat 2)))) = Returns (Some fi)
     /\ Nlink fi = 2 /\ UID fi = 1000 /\ GID fi = 1000
     /\ Major fi = 8 /\ Minor fi = 17 /\ Fileid fi = 42
     /\ Atime fi = mkTime 1700000000 123456789
     /\ Ctime fi = mkTime 1700000002 999999999)
  /\ getOSFileInfo (ex_info Sys_nil) = Returns None.
Proof.
  split.
  - destruct (getOSFileInfo_cases (ex_info (Sys_Stat_t (Some (ex_stat 2)))))
      as (H1 & _).
    destruct (H1 (ex_stat 2) eq_refl)
      as (fi & Hfi & _ & Hn & Hu & Hg & _ & Hd & Hi & _ & _ & Ha & Hc).
    exists fi. split; [exact Hfi |].
    split; [apply Hn; simpl; lia |].
    split; [exact Hu |]. split; [exact Hg |].
    destruct (Hd 8 17) as [HM Hm]; [lia | lia | reflexivity |].
    split; [exact HM |]. split; [exact Hm |]. split; [exact Hi |].
    split; [apply Ha | apply Hc]; simpl; lia.
  - destruct (getOSFileInfo_cases (ex_info Sys_nil)) as (_ & H2).
    apply H2. left. reflexivity.
Defined.

(** C9 (as stated) fails: a native link count of [2 ^ 32] is reported as
    zero. *)
Lemma getOSFileInfo_Nlink_truncated :
  st_Nlink (ex_stat (2 ^ 32)) = 4294967296
  /\ exists fi : FileInfo,
      getOSFileInfo (ex_info (Sys_Stat_t (Some (ex_stat (2 ^ 32))))) = Returns (Some fi)
      /\ Nlink fi = 0
      /\ Nlink fi <> st_Nlink (ex_stat (2 ^ 32)).
Proof.
  split; [reflexivity |].
  eexists. split; [reflexivity |]. split; [reflexivity | discriminate].
Qed.

(** A nil pointer of the native structure's type passes the type
    assertion, and reading its fields panics. *)
Example getOSFileInfo_nil_pointer :
  getOSFileInfo (ex_info (Sys_Stat_t None)) = Panics.
Proof. reflexivity. Qed.
End FileUnix.

(** * Further properties of Handles *)

Lemma Close_one_shot_witness :
  Close (ex_handle O_RDWR) = (set_isClosed (ex_handle O_RDWR) true, None)
  /\ isClosed (Close (ex_handle O_RDWR)).1 = true
  /\ Close (Close (ex_handle O_RDWR)).1
     = (set_isClosed (ex_handle O_RDWR) true, Some ErrClosed).
Proof. apply (Close_one_shot (ex_handle O_RDWR)). reflexivity. Defined.

Lemma closed_handle_refused_witness :
  let f := set_isClosed (ex_handle O_RDWR) true in
  let b := replicate 2 x00 in
  @ReadAt content_spec f ex_heap b 1 = (b, 0, Some ErrClosed)
  /\ (@Read content_spec f ex_heap b).2 = (b, 0, Some ErrClosed)
  /\ @WriteAt content_spec f ex_heap hello 1 t1 = (f, ex_heap, (0, Some ErrClosed))
  /\ @Write content_spec f ex_heap hello t1 = (f, ex_heap, (0, Some ErrClosed))
  /\ Seek f ex_heap 3 SeekStart = (f, (0, Some ErrClosed))
  /\ Close f = (f, Some ErrClosed).
Proof.
  apply (@closed_handle_refused content_spec (set_isClosed (ex_handle O_RDWR) true)
           ex_heap (replicate 2 x00) hello 1 3 SeekStart t1).
  reflexivity.
Defined.



Section HandleExtras.
Context {IO : ContentIO}.

(** X4: [Seek] on an open Handle checks neither the offset nor the whence:
    from the start any offset, negative ones too, becomes the position and
    is returned with no error, and the next [Read] reads there; relative to
    the current position and to the end of the buffer the sum is taken in
    64-bit arithmetic; a whence other than the three known ones changes
    nothing and returns the current position with no error. *)
Theorem Seek_checks_nothing (f : file) (h : gmap loc content) (offset : Z) :
  isClosed f = false ->
  Seek f h offset SeekStart = (set_position f offset, (offset, None))
  /\ (forall b : list Byte.byte,
        (Read (Seek f h offset SeekStart).1 h b).2 .1
        = (ReadAt (set_position f offset) h b offset).1)
  /\ Seek f h offset SeekCurrent
     = (set_position f (wrap64 (position f + offset)),
        (wrap64 (position f + offset), None))
  /\ Seek f h offset SeekEnd
     = (set_position f (wrap64 (content_Len (deref h (fcontent f)) + offset)),
        (wrap64 (content_Len (deref h (fcontent f)) + offset), None))
  /\ (forall whence : Z,
        whence <> SeekStart -> whence <> SeekCurrent -> whence <> SeekEnd ->
        Seek f h offset whence = (f, (position f, None))).
Proof.
  intros Hopen. unfold Seek. rewrite Hopen.
  split; [reflexivity |]. split.
  { intros b. unfold Read. simpl.
    destruct (ReadAt (set_position f offset) h b offset) as [[b' n] e]. reflexivity. }
  split; [reflexivity |]. split; [reflexivity |].
  intros whence H0 H1 H2.
  destruct (Z.eqb_spec whence SeekCurrent); [contradiction |].
  destruct (Z.eqb_spec whence SeekStart); [contradiction |].
  destruct (Z.eqb_spec whence SeekEnd); [contradiction |].
  reflexivity.
Qed.


(** X7: Handles with the same content pointer share the buffer: what
    [WriteAt] through one of them leaves in the buffer is what [ReadAt]
    through the other reads and what its [Stat] sizes, while the other
    Handle's own position stays where it was and buffers of other files are
    untouched. *)
Theorem WriteAt_seen_through_other_handle (f g : file) (h : gmap loc content)
    (p : list Byte.byte) (off : Z) (now : Time) (c' : content) (n : Z)
    (err : option error) :
  fcontent g = fcontent f ->
  isClosed f = false -> isReadAndWrite (flag f) || isWriteOnly (flag f) = true ->
  isClosed g = false -> isReadAndWrite (flag g) || isReadOnly (flag g) = true ->
  content_WriteAt (deref h (fcontent f)) p off = (c', n, err) ->
  exists (f' : file) (h' : gmap loc content),
    WriteAt f h p off now = (f', h', (n, err))
    /\ (forall (b : list Byte.byte) (o : Z), ReadAt g h' b o = content_ReadAt c' b o)
    /\ (forall b : list Byte.byte,
          (Read g h' b).2 .1 = (content_ReadAt c' b (position g)).1)
    /\ fi_size (file_Stat g h').1 = content_Len c'
    /\ forall l : loc, l <> fcontent f -> deref h' l = deref h l.
Proof.
  intros Hsame Hof Hmf Hog Hmg Hw.
  exists (set_mtime (set_position f (wrap64 (off + n))) now), (<[fcontent f := c']> h).
  split.
  { rewrite WriteAt_gate by assumption. rewrite Hmf, Hw. reflexivity. }
  assert (HR : forall (b : list Byte.byte) (o : Z),
             ReadAt g (<[fcontent f := c']> h) b o = content_ReadAt c' b o).
  { intros b o. rewrite ReadAt_gate by assumption.
    rewrite Hmg, Hsame, deref_insert_eq. reflexivity. }
  split; [exact HR |]. split.
  { intros b. unfold Read. rewrite HR.
    destruct (content_ReadAt c' b (position g)) as [[b' n'] e']. reflexivity. }
  split.
  { unfold file_Stat. simpl. rewrite Hsame, deref_insert_eq. reflexivity. }
  intros l Hl. by apply deref_insert_ne.
Qed.
End HandleExtras.

(** X6: [Truncate] does not validate its size: a negative one makes the
    slice expression panic, on every Handle and every buffer, an empty one
    included. *)
Theorem Truncate_negative_size_panics (f : file) (h : gmap loc content)
    (size : Z) (now : Time) :
  size < 0 -> Truncate f h size now = Panics.
Proof.
  intros Hneg. unfold Truncate.
  destruct (Z.ltb_spec size (Z.of_nat (length (bytes (deref h (fcontent f))))));
    [| lia].
  destruct (Z.ltb_spec size 0); [reflexivity | lia].
Qed.

Lemma Truncate_negative_size_panics_witness :
  Truncate (ex_handle O_RDWR) ex_heap (-1) t1 = Panics
  /\ Truncate (ex_handle O_RDWR) ∅ (-1) t1 = Panics.
Proof.
  split; apply Truncate_negative_size_panics; lia.
Defined.

Lemma Seek_checks_nothing_witness :
  let f := ex_handle O_RDONLY in
  Seek f ex_heap (-3) SeekStart = (set_position f (-3), (-3, None))
  /\ (forall b : list Byte.byte,
        (@Read content_spec (Seek f ex_heap (-3) SeekStart).1 ex_heap b).2 .1
        = (@ReadAt content_spec (set_position f (-3)) ex_heap b (-3)).1)
  /\ Seek f ex_heap (-3) SeekCurrent = (set_position f (-3), (-3, None))
  /\ Seek f ex_heap (-3) SeekEnd = (set_position f 2, (2, None))
  /\ (forall whence : Z,
        whence <> SeekStart -> whence <> SeekCurrent -> whence <> SeekEnd ->
        Seek f ex_heap (-3) whence = (f, (0, None))).
Proof.
  apply (@Seek_checks_nothing content_spec (ex_handle O_RDONLY) ex_heap (-3)).
  reflexivity.
Defined.

(** The read at the negative position then fails in the buffer. *)
Example Read_after_negative_Seek :
  (@Read content_spec (Seek (ex_handle O_RDONLY) ex_heap (-3) SeekStart).1 ex_heap [x00]).2
  = ([x00], 0, Some (errorString "negative offset")).
Proof. reflexivity. Qed.


(** A writer and a reader on the buffer of [hello]. *)
Lemma WriteAt_seen_through_other_handle_witness :
  let f := ex_handle O_WRONLY in
  let g := set_position (ex_handle O_RDONLY) 3 in
  exists (f' : file) (h' : gmap loc content),
    @WriteAt content_spec f ex_heap2 (list_byte_of_string "J") 0 t1 = (f', h', (1, None))
    /\ (forall (b : list Byte.byte) (o : Z),
          @ReadAt content_spec g h' b o
          = spec_ReadAt (mkContent (list_byte_of_string "Jello")) b o)
    /\ (forall b : list Byte.byte,
          (@Read content_spec g h' b).2 .1
          = (spec_ReadAt (mkContent (list_byte_of_string "Jello")) b 3).1)
    /\ fi_size (file_Stat g h').1 = 5
    /\ forall l : loc, l <> 0%nat -> deref h' l = deref ex_heap2 l.
Proof.
  apply (@WriteAt_seen_through_other_handle content_spec (ex_handle O_WRONLY)
           (set_position (ex_handle O_RDONLY) 3) ex_heap2 (list_byte_of_string "J") 0 t1
           (mkContent (list_byte_of_string "Jello")) 1 None); reflexivity.
Defined.

(** * Further properties of the filesystem *)

Lemma Memory_eta (m : Memory) : mkMemory (files m) (heap m) = m.
Proof. by destruct m. Qed.

(** [OpenFile] where the path holds an Entry that is not a symlink, and
    along a chain of symlinks. *)
Lemma OpenFile_here (m : Memory) (p : string) (e : file) (flag perm : Z) (now : Time)
    (fuel : nat) :
  Get m p = Some e -> isSymlink (mode e) = false -> isExclusive flag = false ->
  OpenFile (S fuel) m p flag perm now = Some (open_entry m e p flag perm now).
Proof.
  intros Hget Hs Hx. simpl.
  rewrite Hget, Hx, (resolveLink_not_symlink _ _ _ Hs). reflexivity.
Qed.

Lemma OpenFile_links (m : Memory) (flag perm : Z) (now : Time)
    (p : string) (k : nat) (q : string) (e : file) :
  links m p k q e -> isExclusive flag = false ->
  forall fuel : nat, (k < fuel)%nat ->
    OpenFile fuel m p flag perm now = Some (open_entry m e q flag perm now).
Proof.
  intros Hl Hx. induction Hl as [p f Hget Hs | p f t k q e Hget Hres Hl IH];
    intros fuel Hfuel.
  - destruct fuel as [| fuel]; [lia |]. by apply OpenFile_here.
  - destruct fuel as [| fuel]; [lia |]. simpl.
    rewrite Hget, Hx, Hres. apply IH. lia.
Qed.

(** What [open_entry] returns for an Entry that is not a directory. *)
Lemma open_entry_regular (m : Memory) (e : file) (p : string) (flag perm : Z)
    (now : Time) :
  IsDir (mode e) = false ->
  exists (m' : Memory) (hd : file),
    open_entry m e p flag perm now = (m', inl hd)
    /\ files m' = files m
    /\ hd = mkFile p (fcontent e) (position hd) flag perm now false
    /\ bytes (deref (heap m') (fcontent e))
       = (if isTruncate flag then [] else bytes (deref (heap m) (fcontent e)))
    /\ position hd
       = (if isAppend flag then content_Len (deref (heap m') (fcontent e)) else 0)
    /\ forall l : loc, l <> fcontent e -> deref (heap m') l = deref (heap m) l.
Proof.
  intros Hd. unfold open_entry, Duplicate. rewrite Hd.
  do 2 eexists. split; [reflexivity |]. simpl.
  split; [reflexivity |]. split; [reflexivity |].
  destruct (isTruncate flag).
  - rewrite deref_insert_eq. split; [reflexivity |]. split; [reflexivity |].
    intros l Hl. by apply deref_insert_ne.
  - split; [reflexivity |]. split; [reflexivity |]. reflexivity.
Qed.

(** X8: [OpenFile] on a path that holds a regular Entry (no [O_EXCL])
    returns an open Handle on the Entry's own buffer, named as the path was
    passed, with the flags and the perm of the call; the set of Entries
    is unchanged; [O_TRUNC] empties the shared buffer, otherwise it is left
    alone, no other buffer is touched; the position is the length of the
    buffer (after the truncation) under [O_APPEND] and 0 otherwise. *)
Theorem OpenFile_existing_regular (m : Memory) (p : string) (e : file)
    (flag perm : Z) (now : Time) (fuel : nat) :
  Get m p = Some e -> isSymlink (mode e) = false -> IsDir (mode e) = false ->
  isExclusive flag = false ->
  exists (m' : Memory) (hd : file),
    OpenFile (S fuel) m p flag perm now = Some (m', inl hd)
    /\ files m' = files m
    /\ hd = mkFile p (fcontent e) (position hd) flag perm now false
    /\ bytes (deref (heap m') (fcontent e))
       = (if isTruncate flag then [] else bytes (deref (heap m) (fcontent e)))
    /\ position hd
       = (if isAppend flag then content_Len (deref (heap m') (fcontent e)) else 0)
    /\ forall l : loc, l <> fcontent e -> deref (heap m') l = deref (heap m) l.
Proof.
  intros Hget Hs Hd Hx.
  rewrite (OpenFile_here m p e flag perm now fuel Hget Hs Hx).
  destruct (open_entry_regular m e p flag perm now Hd) as (m' & hd & -> & H).
  exists m', hd. split; [reflexivity | exact H].
Qed.

(** X9: through a chain of symlinks [OpenFile] (no [O_EXCL]) does what it
    does on the path the chain ends at, and the Handle it returns for a
    regular Entry carries that resolved path as its name, not the path
    asked for. *)
Theorem OpenFile_follows_links (m : Memory) (flag perm : Z) (now : Time)
    (p : string) (k : nat) (q : string) (e : file) (fuel : nat) :
  links m p k q e -> isExclusive flag = false -> (k < fuel)%nat ->
  OpenFile fuel m p flag perm now = OpenFile 1 m q flag perm now
  /\ (IsDir (mode e) = false ->
      exists (m' : Memory) (hd : file),
        OpenFile fuel m p flag perm now = Some (m', inl hd)
        /\ file_Name hd = q /\ fcontent hd = fcontent e /\ files m' = files m).
Proof.
  intros Hl Hx Hfuel.
  assert (Hq : Get m q = Some e /\ isSymlink (mode e) = false).
  { clear Hfuel. induction Hl; auto. }
  destruct Hq as [Hget Hs].
  rewrite (OpenFile_links m flag perm now p k q e Hl Hx fuel Hfuel).
  rewrite (OpenFile_here m q e flag perm now 0 Hget Hs Hx).
  split; [reflexivity |].
  intros Hd. destruct (open_entry_regular m e q flag perm now Hd)
    as (m' & hd & -> & Hf & Hhd & _).
  exists m', hd. split; [reflexivity |]. rewrite Hhd. auto.
Qed.

(** X10: [Create] on a path that holds a regular Entry empties its buffer:
    it returns a Handle at position 0 that passes the read and the write
    test, keeps the Entries, and [Stat] of the path then reports size 0 with
    the Entry's mode. *)
Theorem Create_truncates_existing (m : Memory) (p : string) (e : file) (now : Time)
    (fuel fuel' : nat) :
  Get m p = Some e -> isSymlink (mode e) = false -> IsDir (mode e) = false ->
  exists (m' : Memory) (hd : file),
    Create (S fuel) m p now = Some (m', inl hd)
    /\ files m' = files m
    /\ bytes (deref (heap m') (fcontent e)) = []
    /\ position hd = 0 /\ isClosed hd = false
    /\ isReadAndWrite (flag hd) = true
    /\ Stat (S fuel') m' p = Some (inl (mkFileInfo (Base p) 0 (mode e) (mtime e))).
Proof.
  intros Hget Hs Hd. unfold Create.
  rewrite (OpenFile_here m p e (Z.lor (Z.lor O_RDWR O_CREATE) O_TRUNC) 438 now fuel
             Hget Hs eq_refl).
  destruct (open_entry_regular m e p (Z.lor (Z.lor O_RDWR O_CREATE) O_TRUNC) 438 now Hd)
    as (m' & hd & -> & Hf & Hhd & Hb & Hp & _).
  exists m', hd. split; [reflexivity |]. split; [exact Hf |].
  change (isTruncate (Z.lor (Z.lor O_RDWR O_CREATE) O_TRUNC)) with true in Hb.
  change (isAppend (Z.lor (Z.lor O_RDWR O_CREATE) O_TRUNC)) with false in Hp.
  split; [exact Hb |]. split; [exact Hp |].
  split; [rewrite Hhd; reflexivity |]. split; [rewrite Hhd; reflexivity |].
  assert (Hget' : Get m' p = Some e) by (unfold Get in *; by rewrite Hf).
  simpl. rewrite Hget', (resolveLink_not_symlink _ _ _ Hs).
  unfold file_Stat, content_Len. simpl. rewrite Hb. reflexivity.
Qed.

(** X11: [Open] on a path that holds a regular Entry changes nothing in the
    filesystem and returns a Handle at position 0 whose every [WriteAt] and
    [Write] is refused with the unsupported-operation error, while its
    reads go to the Entry's buffer. *)
Theorem Open_is_read_only (m : Memory) (p : string) (e : file) (now : Time)
    (fuel : nat) :
  Get m p = Some e -> isSymlink (mode e) = false -> IsDir (mode e) = false ->
  Open (S fuel) m p now = Some (m, inl (mkFile p (fcontent e) 0 O_RDONLY 0 now false))
  /\ forall (IO : ContentIO) (h : gmap loc content) (b q : list Byte.byte) (off : Z)
            (now' : Time),
       let hd := mkFile p (fcontent e) 0 O_RDONLY 0 now false in
       WriteAt hd h q off now' = (hd, h, (0, Some (errorString "write not supported")))
       /\ Write hd h q now' = (hd, h, (0, Some (errorString "write not supported")))
       /\ ReadAt hd h b off = content_ReadAt (deref h (fcontent e)) b off.
Proof.
  intros Hget Hs Hd. split.
  - unfold Open. rewrite (OpenFile_here m p e O_RDONLY 0 now fuel Hget Hs eq_refl).
    unfold open_entry, Duplicate. rewrite Hd. simpl. by rewrite Memory_eta.
  - intros IO h b q off now'. repeat split.
Qed.

(** X12: the [Stat] of a Handle is not the [Stat] of its path: the Handle
    from [OpenFile] on a regular Entry reports the name as passed, the perm
    of the call and the time of opening, where [Memory.Stat] reports the
    base name, the Entry's mode and the Entry's mtime; the two agree on the
    size, that of the shared buffer. *)
Theorem Handle_Stat_vs_Memory_Stat (m : Memory) (p : string) (e : file)
    (flag perm : Z) (now : Time) (fuel fuel' : nat) :
  Get m p = Some e -> isSymlink (mode e) = false -> IsDir (mode e) = false ->
  isExclusive flag = false ->
  exists (m' : Memory) (hd : file),
    OpenFile (S fuel) m p flag perm now = Some (m', inl hd)
    /\ file_Stat hd (heap m')
       = (mkFileInfo p (content_Len (deref (heap m') (fcontent e))) perm now, None)
    /\ Stat (S fuel') m' p
       = Some (inl (mkFileInfo (Base p) (content_Len (deref (heap m') (fcontent e)))
                               (mode e) (mtime e))).
Proof.
  intros Hget Hs Hd Hx.
  rewrite (OpenFile_here m p e flag perm now fuel Hget Hs Hx).
  destruct (open_entry_regular m e p flag perm now Hd)
    as (m' & hd & -> & Hf & Hhd & _).
  exists m', hd. split; [reflexivity |]. split.
  - rewrite Hhd. reflexivity.
  - assert (Hget' : Get m' p = Some e) by (unfold Get in *; by rewrite Hf).
    simpl. rewrite Hget', (resolveLink_not_symlink _ _ _ Hs). reflexivity.
Qed.

Lemma ex_tree_file :
  exists e : file,
    Get ex_tree "/a/b/f.txt" = Some e
    /\ isSymlink (mode e) = false /\ IsDir (mode e) = false
    /\ bytes (deref (heap ex_tree) (fcontent e)) = hello
    /\ mode e = 438 /\ mtime e = t0.
Proof.
  eexists. split; [vm_compute; reflexivity |].
  repeat split; vm_compute; reflexivity.
Qed.

Lemma OpenFile_existing_regular_witness :
  exists (m' : Memory) (hd : file),
    OpenFile 1 ex_tree "/a/b/f.txt" (Z.lor O_WRONLY O_APPEND) 0 t1 = Some (m', inl hd)
    /\ files m' = files ex_tree
    /\ file_Name hd = "/a/b/f.txt" /\ flag hd = Z.lor O_WRONLY O_APPEND
    /\ position hd = 5.
Proof.
  destruct ex_tree_file as (e & Hget & Hs & Hd & Hb & _ & _).
  destruct (OpenFile_existing_regular ex_tree "/a/b/f.txt" e (Z.lor O_WRONLY O_APPEND)
              0 t1 0 Hget Hs Hd eq_refl) as (m' & hd & HO & Hf & Hhd & Hbs & Hp & _).
  exists m', hd. split; [exact HO |]. split; [exact Hf |].
  split; [by rewrite Hhd |]. split; [by rewrite Hhd |].
  rewrite Hp. change (isAppend (Z.lor O_WRONLY O_APPEND)) with true.
  change (isTruncate (Z.lor O_WRONLY O_APPEND)) with false in Hbs.
  unfold content_Len. rewrite Hbs, Hb. reflexivity.
Defined.

Lemma OpenFile_follows_links_witness :
  OpenFile 2 ex_tree "/link" O_RDONLY 0 t1 = OpenFile 1 ex_tree "/a/b/f.txt" O_RDONLY 0 t1
  /\ exists (m' : Memory) (hd : file),
      OpenFile 2 ex_tree "/link" O_RDONLY 0 t1 = Some (m', inl hd)
      /\ file_Name hd = "/a/b/f.txt".
Proof.
  destruct ex_tree_links as (e & Hl & _ & Hmode).
  destruct (OpenFile_follows_links ex_tree O_RDONLY 0 t1 "/link" 1 "/a/b/f.txt" e 2
              Hl eq_refl) as (H1 & H2); [lia |].
  split; [exact H1 |].
  destruct H2 as (m' & hd & HO & Hn & _); [by rewrite Hmode |].
  exists m', hd. split; [exact HO | exact Hn].
Defined.

Lemma Create_truncates_existing_witness :
  exists (m' : Memory) (hd : file),
    Create 1 ex_tree "/a/b/f.txt" t1 = Some (m', inl hd)
    /\ position hd = 0
    /\ Stat 1 m' "/a/b/f.txt" = Some (inl (mkFileInfo "f.txt" 0 438 t0)).
Proof.
  destruct ex_tree_file as (e & Hget & Hs & Hd & _ & Hmode & Hm).
  destruct (Create_truncates_existing ex_tree "/a/b/f.txt" e t1 0 0 Hget Hs Hd)
    as (m' & hd & HC & _ & _ & Hp & _ & _ & HS).
  exists m', hd. split; [exact HC |]. split; [exact Hp |].
  rewrite HS, Hmode, Hm. reflexivity.
Defined.

Lemma Open_is_read_only_witness :
  exists hd : file,
    Open 1 ex_tree "/a/b/f.txt" t1 = Some (ex_tree, inl hd)
    /\ forall (q : list Byte.byte) (off : Z),
         @WriteAt content_spec hd (heap ex_tree) q off t1
         = (hd, heap ex_tree, (0, Some (errorString "write not supported"))).
Proof.
  destruct ex_tree_file as (e & Hget & Hs & Hd & _).
  destruct (Open_is_read_only ex_tree "/a/b/f.txt" e t1 0 Hget Hs Hd) as (HO & HW).
  eexists. split; [exact HO |].
  intros q off. apply (HW content_spec (heap ex_tree) [] q off t1).
Defined.

Lemma Handle_Stat_vs_Memory_Stat_witness :
  exists (m' : Memory) (hd : file),
    OpenFile 1 ex_tree "/a/b/f.txt" O_RDONLY 0 t1 = Some (m', inl hd)
    /\ (file_Stat hd (heap m')).1 = mkFileInfo "/a/b/f.txt" 5 0 t1
    /\ exists fi : fileInfo,
         Stat 1 m' "/a/b/f.txt" = Some (inl fi)
         /\ fi_name fi = "f.txt" /\ fi_size fi = 5 /\ fi_mode fi = 438.
Proof.
  destruct ex_tree_file as (e & Hget & Hs & Hd & Hb & Hmode & _).
  destruct (Handle_Stat_vs_Memory_Stat ex_tree "/a/b/f.txt" e O_RDONLY 0 t1 0 0
              Hget Hs Hd eq_refl) as (m' & hd & HO & HS & HM).
  assert (Hm' : m' = ex_tree).
  { assert (HO' : exists hd', OpenFile 1 ex_tree "/a/b/f.txt" O_RDONLY 0 t1
                              = Some (ex_tree, inl hd')).
    { eexists. vm_compute. reflexivity. }
    destruct HO' as (hd' & HO'). rewrite HO in HO'. by injection HO'. }
  subst m'.
  assert (Hlen : content_Len (deref (heap ex_tree) (fcontent e)) = 5).
  { unfold content_Len. rewrite Hb. reflexivity. }
  exists ex_tree, hd. split; [exact HO |]. split.
  - rewrite HS, Hlen. reflexivity.
  - eexists. split; [exact HM |]. simpl. rewrite Hlen, Hmode. repeat split.
Defined.

(** ** What the lookups fail with *)

(** X13: [Stat] fails with [os.ErrNotExist] and with nothing else, also at
    the end of a chain of symlinks; so in [Symlink] the test that passes on
    any other error of [Stat] never fires. *)
Theorem Stat_fails_only_with_ErrNotExist (fuel : nat) (m : Memory) (p : string)
    (err : error) :
  Stat fuel m p = Some (inr err) -> err = ErrNotExist /\ IsNotExist err = true.
Proof.
  revert p. induction fuel as [| fuel IH]; intros p; simpl; [discriminate |].
  destruct (Get m p) as [f |]; [| intros [= <-]; split; reflexivity].
  destruct (resolveLink m p f) as [t isLink]. destruct isLink.
  - destruct (Stat fuel m t) as [[fi | e] |] eqn:Ht; try discriminate.
    intros [= <-]. by apply (IH t).
  - discriminate.
Qed.

Lemma Stat_fails_only_with_ErrNotExist_witness :
  Stat 3 ex_chain "/a" = Some (inr ErrNotExist) /\ IsNotExist ErrNotExist = true.
Proof.
  split; [| reflexivity].
  assert (H : exists err, Stat 3 ex_chain "/a" = Some (inr err)).
  { eexists. vm_compute. reflexivity. }
  destruct H as (err & H). rewrite H.
  destruct (Stat_fails_only_with_ErrNotExist 3 ex_chain "/a" err H) as [-> _].
  reflexivity.
Defined.

(** X14: symlinks that lead only to one another are never resolved: on
    every path of such a set [Stat], [ReadDir], [OpenFile] (without
    [O_EXCL]) and [Symlink] give no result within any bound on the depth of
    the recursion. *)
Theorem symlink_cycle_never_resolves (IO : ContentIO) (m : Memory)
    (loop : string -> Prop) :
  (forall p : string, loop p ->
     exists (f : file) (t : string),
       Get m p = Some f /\ resolveLink m p f = (t, true) /\ loop t) ->
  forall (fuel : nat) (p : string), loop p ->
    Stat fuel m p = None
    /\ ReadDir fuel m p = None
    /\ (forall (flag perm : Z) (now : Time), isExclusive flag = false ->
          OpenFile fuel m p flag perm now = None)
    /\ (forall (target : string) (now : Time), Symlink fuel m target p now = None).
Proof.
  intros Hclosed fuel.
  assert (H : forall p : string, loop p ->
            Stat fuel m p = None /\ ReadDir fuel m p = None
            /\ (forall (flag perm : Z) (now : Time), isExclusive flag = false ->
                  OpenFile fuel m p flag perm now = None)).
  { induction fuel as [| fuel IH]; intros p Hp; [repeat split |].
    destruct (Hclosed p Hp) as (f & t & Hget & Hres & Ht).
    destruct (IH t Ht) as (IH1 & IH2 & IH3).
    simpl. rewrite Hget, Hres, IH1. split; [reflexivity |]. split; [exact IH2 |].
    intros flag perm now Hx. rewrite Hx. by apply IH3. }
  intros p Hp. destruct (H p Hp) as (H1 & H2 & H3).
  split; [exact H1 |]. split; [exact H2 |]. split; [exact H3 |].
  intros target now. unfold Symlink. rewrite H1. reflexivity.
Qed.

Lemma ex_cycle_closed :
  forall p : string, p = "/a" \/ p = "/b" ->
    exists (f : file) (t : string),
      Get ex_cycle p = Some f /\ resolveLink ex_cycle p f = (t, true)
      /\ (t = "/a" \/ t = "/b").
Proof.
  intros p [-> | ->].
  - do 2 eexists. split; [vm_compute; reflexivity |].
    split; [vm_compute; reflexivity | right; reflexivity].
  - do 2 eexists. split; [vm_compute; reflexivity |].
    split; [vm_compute; reflexivity | left; reflexivity].
Qed.

Lemma symlink_cycle_never_resolves_witness :
  (forall fuel : nat, Stat fuel ex_cycle "/a" = None)
  /\ (forall fuel : nat, ReadDir fuel ex_cycle "/b" = None)
  /\ (forall fuel : nat, OpenFile fuel ex_cycle "/a" O_RDONLY 0 t1 = None)
  /\ (forall fuel : nat, @Symlink content_spec fuel ex_cycle "/c" "/a" t1 = None).
Proof.
  pose proof (symlink_cycle_never_resolves content_spec ex_cycle
                (fun p => p = "/a" \/ p = "/b") ex_cycle_closed) as H.
  split; [intros fuel; apply (H fuel "/a"); by left |].
  split; [intros fuel; apply (H fuel "/b"); by right |].
  split; intros fuel; destruct (H fuel "/a") as (_ & _ & H3 & H4); try by left.
  - by apply H3.
  - apply H4.
Defined.

Lemma length_string_of_list_byte (l : list Byte.byte) :
  String.length (string_of_list_byte l) = length l.
Proof.
  induction l as [| b l IH]; [reflexivity |].
  change (string_of_list_byte (b :: l))
    with (String (ascii_of_byte b) (string_of_list_byte l)).
  simpl. by rewrite IH.
Qed.

(** X15: [Lstat] does not follow a symlink: it fails with [os.ErrNotExist]
    where there is no Entry, and otherwise gives the Entry's own stored
    name, mode, mtime and buffer length; for a symlink that length is the
    length of the target string [Readlink] returns; for any other Entry
    [Stat] gives the same info with the name replaced by the base name of
    the path. *)
Theorem Lstat_cases (m : Memory) (p : string) :
  (Get m p = None -> Lstat m p = inr ErrNotExist)
  /\ (forall f : file, Get m p = Some f ->
      Lstat m p = inl (mkFileInfo (name f) (content_Len (deref (heap m) (fcontent f)))
                                  (mode f) (mtime f))
      /\ (isSymlink (mode f) = true ->
          exists target : string,
            Readlink m p = inl target
            /\ content_Len (deref (heap m) (fcontent f)) = Z.of_nat (String.length target))
      /\ (isSymlink (mode f) = false ->
          forall fuel : nat,
            Stat (S fuel) m p
            = Some (inl (mkFileInfo (Base p) (content_Len (deref (heap m) (fcontent f)))
                                    (mode f) (mtime f))))).
Proof.
  split.
  - intros Hget. unfold Lstat. by rewrite Hget.
  - intros f Hget. split; [unfold Lstat; by rewrite Hget |]. split.
    + intros Hs. eexists. split.
      * unfold Readlink. rewrite Hget, Hs. reflexivity.
      * unfold content_Len. by rewrite length_string_of_list_byte.
    + intros Hs fuel. simpl.
      rewrite Hget, (resolveLink_not_symlink _ _ _ Hs). reflexivity.
Qed.

Lemma Lstat_cases_witness :
  Lstat ex_tree "/nothing" = inr ErrNotExist
  /\ (exists fi : fileInfo,
        Lstat ex_tree "/link" = inl fi /\ fi_size fi = 10
        /\ Readlink ex_tree "/link" = inl "/a/b/f.txt")
  /\ (exists fi : fileInfo,
        Lstat ex_tree "/a/b/f.txt" = inl fi
        /\ Stat 1 ex_tree "/a/b/f.txt" = Some (inl (set_fi_name fi "f.txt"))).
Proof.
  destruct (Lstat_cases ex_tree "/nothing") as (H1 & _).
  split; [apply H1; reflexivity |]. split.
  - assert (Hl : exists l, Get ex_tree "/link" = Some l /\ isSymlink (mode l) = true).
    { eexists. split; [vm_compute; reflexivity | vm_compute; reflexivity]. }
    destruct Hl as (l & Hget & Hs).
    destruct (Lstat_cases ex_tree "/link") as (_ & H2).
    destruct (H2 l Hget) as (HL & Hsym & _).
    destruct (Hsym Hs) as (target & HR & Hlen).
    assert (Ht : target = "/a/b/f.txt").
    { assert (HR' : Readlink ex_tree "/link" = inl "/a/b/f.txt")
        by (vm_compute; reflexivity).
      rewrite HR in HR'. by injection HR'. }
    subst target.
    eexists. split; [exact HL |]. split; [simpl; rewrite Hlen; reflexivity | exact HR].
  - destruct ex_tree_file as (e & Hget & Hs & _).
    destruct (Lstat_cases ex_tree "/a/b/f.txt") as (_ & H2).
    destruct (H2 e Hget) as (HL & _ & Hreg).
    eexists. split; [exact HL |]. rewrite (Hreg Hs 0%nat). reflexivity.
Defined.


(** X17: [ReadDir] fails only where a path holds no Entry, the path asked
    for or the one a chain of symlinks ends at, and then with the
    [os.PathError] of [open] on that very path around [ENOENT], an error
    [os.IsNotExist] accepts; it gives no not-a-directory error. *)
Theorem ReadDir_fails_only_not_exist (fuel : nat) (m : Memory) (p : string)
    (err : error) :
  ReadDir fuel m p = Some (inr err) ->
  exists q : string,
    err = PathError "open" q ENOENT /\ Get m q = None /\ IsNotExist err = true.
Proof.
  revert p. induction fuel as [| fuel IH]; intros p; simpl; [discriminate |].
  destruct (Get m p) as [f |] eqn:Hget.
  - destruct (resolveLink m p f) as [t isLink]. destruct isLink.
    + apply IH.
    + discriminate.
  - intros [= <-]. exists p. repeat split. exact Hget.
Qed.


Lemma ReadDir_fails_only_not_exist_witness :
  ReadDir 2 ex_dangling "/l" = Some (inr (PathError "open" "/x" ENOENT))
  /\ exists q : string,
      PathError "open" "/x" ENOENT = PathError "open" q ENOENT
      /\ Get ex_dangling q = None
      /\ IsNotExist (PathError "open" "/x" ENOENT) = true.
Proof.
  assert (H : ReadDir 2 ex_dangling "/l" = Some (inr (PathError "open" "/x" ENOENT))).
  { vm_compute. reflexivity. }
  split; [exact H |].
  apply (ReadDir_fails_only_not_exist 2 ex_dangling "/l" _ H).
Defined.




(** X19: [ByName.Less] is a strict order on the names: no info is less than
    itself or than one of the same name, it is never both ways, it is
    transitive, and of two infos with different names one is less than the
    other. *)
Theorem ByName_Less_strict_order (a b c : fileInfo) :
  ByName_Less a a = false
  /\ (fi_name a = fi_name b -> ByName_Less a b = false)
  /\ (ByName_Less a b = true -> ByName_Less b a = false)
  /\ (ByName_Less a b = true -> ByName_Less b c = true -> ByName_Less a c = true)
  /\ (fi_name a <> fi_name b -> ByName_Less a b = true \/ ByName_Less b a = true).
Proof.
  unfold ByName_Less, String.ltb.
  assert (Hrefl : forall s : string, String.compare s s = Eq).
  { intros s. by apply OrderedTypeEx.String_as_OT.cmp_eq. }
  split; [by rewrite Hrefl |].
  split; [intros ->; by rewrite Hrefl |].
  split.
  { rewrite (String.compare_antisym (fi_name b) (fi_name a)).
    destruct (String.compare (fi_name a) (fi_name b)); simpl; congruence. }
  split.
  { destruct (String.compare (fi_name a) (fi_name b)) eqn:Hab; try discriminate.
    destruct (String.compare (fi_name b) (fi_name c)) eqn:Hbc; try discriminate.
    intros _ _.
    apply OrderedTypeEx.String_as_OT.cmp_lt in Hab, Hbc.
    pose proof (OrderedTypeEx.String_as_OT.lt_trans _ _ _ Hab Hbc) as Hac.
    apply OrderedTypeEx.String_as_OT.cmp_lt in Hac.
    unfold OrderedTypeEx.String_as_OT.cmp in Hac. by rewrite Hac. }
  intros Hne.
  rewrite (String.compare_antisym (fi_name b) (fi_name a)).
  destruct (String.compare (fi_name a) (fi_name b)) eqn:Hab; simpl; auto.
  apply String.compare_eq_iff in Hab. contradiction.
Qed.

(** [Stat] along a chain of symlinks, for the proofs below. *)
Lemma Stat_links_info (m : Memory) (p : string) (k : nat) (q : string) (e : file) :
  links m p k q e ->
  forall fuel : nat, (k < fuel)%nat ->
    Stat fuel m p
    = Some (inl (mkFileInfo (Base p) (content_Len (deref (heap m) (fcontent e)))
                            (mode e) (mtime e))).
Proof.
  intros Hl. induction Hl as [p f Hget Hs | p f t k q e Hget Hres Hl IH];
    intros fuel Hfuel; (destruct fuel as [| fuel]; [lia |]); simpl.
  - rewrite Hget, (resolveLink_not_symlink _ _ _ Hs). reflexivity.
  - rewrite Hget, Hres, (IH fuel) by lia. reflexivity.
Qed.

(** X20: an info of this filesystem carries no native structure: [Sys()] of
    what [Stat] returns is nil, so [getOSFileInfo] of it returns nil and
    does not panic, and [IsDir()] of it is the directory bit of the Entry
    the path resolves to. *)
Theorem getOSFileInfo_of_Stat (m : Memory) (p : string) (k : nat) (q : string)
    (e : file) (fuel : nat) :
  links m p k q e -> (k < fuel)%nat ->
  exists fi : fileInfo,
    Stat fuel m p = Some (inl fi)
    /\ file_unix.getOSFileInfo (as_os_FileInfo fi) = Returns None
    /\ fileInfo_IsDir fi = IsDir (mode e)
    /\ fileInfo_Size fi = content_Len (deref (heap m) (fcontent e)).
Proof.
  intros Hl Hfuel. eexists. split.
  - by apply (Stat_links_info m p k q e Hl).
  - repeat split.
Qed.

Lemma getOSFileInfo_of_Stat_witness :
  exists fi : fileInfo,
    Stat 2 ex_tree "/link" = Some (inl fi)
    /\ file_unix.getOSFileInfo (as_os_FileInfo fi) = Returns None
    /\ fileInfo_IsDir fi = false
    /\ fileInfo_Size fi = 5.
Proof.
  destruct ex_tree_links as (e & Hl & Hsize & Hmode).
  destruct (getOSFileInfo_of_Stat ex_tree "/link" 1 "/a/b/f.txt" e 2 Hl)
    as (fi & HS & HG & HD & HZ); [lia |].
  exists fi. split; [exact HS |]. split; [exact HG |].
  split; [by rewrite HD, Hmode | by rewrite HZ].
Defined.

(** ** Creation *)

Lemma alloc_fresh (h : gmap loc content) : h !! alloc h = None.
Proof. apply not_elem_of_dom. unfold alloc. apply is_fresh. Qed.

Lemma createParent_heap_keeps (n : nat) (m : Memory) (p : string) (perm : Z)
    (now : Time) (l : loc) (c : content) :
  heap m !! l = Some c -> heap (createParent n m p perm now) !! l = Some c.
Proof.
  revert m p. induction n as [| n IH]; intros m p Hl; simpl; [exact Hl |].
  destruct (parent p) as [d |]; [| exact Hl].
  destruct (files m !! d) eqn:Hd; apply IH; [exact Hl |].
  simpl. rewrite lookup_insert_ne; [exact Hl |].
  intros <-. by rewrite alloc_fresh in Hl.
Qed.

(** What [storage.New] leaves on a path that held no Entry. *)
Lemma New_fresh (m : Memory) (p : string) (mode flag : Z) (now : Time) :
  Get m p = None ->
  exists (m' : Memory) (e : file),
    New m p mode flag now = (m', inl e)
    /\ Get m' p = Some e
    /\ e = mkFile (Base (clean p)) (alloc (heap m)) 0 flag mode now false
    /\ heap m' !! alloc (heap m) = Some (mkContent [])
    /\ (forall (k : string) (f : file), files m !! k = Some f -> files m' !! k = Some f)
    /\ (forall (l : loc) (c : content), heap m !! l = Some c -> heap m' !! l = Some c).
Proof.
  intros Hget. unfold New. unfold Get in Hget. rewrite Hget.
  do 2 eexists. split; [reflexivity |]. split.
  { unfold Get. apply createParent_keeps. simpl. apply lookup_insert_eq. }
  split; [reflexivity |]. split.
  { apply createParent_heap_keeps. simpl. apply lookup_insert_eq. }
  split.
  - intros k f Hk. apply createParent_keeps. simpl.
    rewrite lookup_insert_ne; [exact Hk |]. intros <-. congruence.
  - intros l c Hl. apply createParent_heap_keeps. simpl.
    rewrite lookup_insert_ne; [exact Hl |]. intros <-. by rewrite alloc_fresh in Hl.
Qed.

(** [OpenFile] with [O_CREATE] where the path holds no Entry. *)
Lemma OpenFile_creates_at (m : Memory) (p : string) (flag perm : Z) (now : Time)
    (fuel : nat) :
  Get m p = None -> isCreate flag = true -> IsDir perm = false ->
  exists (m' : Memory) (hd e : file),
    OpenFile (S fuel) m p flag perm now = Some (m', inl hd)
    /\ Get m' p = Some e /\ mode e = perm
    /\ fcontent hd = fcontent e /\ file_Name hd = p
    /\ position hd = 0 /\ isClosed hd = false
    /\ bytes (deref (heap m') (fcontent e)) = []
    /\ (forall (k : string) (f : file), files m !! k = Some f -> files m' !! k = Some f)
    /\ (forall (l : loc) (c : content), heap m !! l = Some c -> heap m' !! l = Some c).
Proof.
  intros Hget Hc Hd.
  destruct (New_fresh m p perm flag now Hget)
    as (m1 & e & HN & Hg1 & He & Hl1 & Hfiles & Hheap).
  simpl OpenFile. rewrite Hget, Hc, HN. simpl negb. cbv iota.
  assert (Hmode : mode e = perm) by (rewrite He; reflexivity).
  assert (Hloc : fcontent e = alloc (heap m)) by (rewrite He; reflexivity).
  unfold open_entry, Duplicate. rewrite Hmode, Hd.
  assert (Hempty : bytes (deref (heap m1) (fcontent e)) = []).
  { unfold deref. rewrite Hloc, Hl1. reflexivity. }
  do 3 eexists. split; [reflexivity |]. simpl.
  split; [exact Hg1 |]. split; [exact Hmode |].
  split; [reflexivity |]. split; [reflexivity |].
  split.
  { destruct (isAppend flag); [| reflexivity].
    destruct (isTruncate flag).
    - rewrite deref_insert_eq. reflexivity.
    - unfold content_Len. rewrite Hempty. reflexivity. }
  split; [reflexivity |]. split.
  { destruct (isTruncate flag); [by rewrite deref_insert_eq | exact Hempty]. }
  split; [exact Hfiles |].
  intros l c Hl. destruct (isTruncate flag); [| by apply Hheap].
  rewrite lookup_insert_ne; [by apply Hheap |].
  rewrite Hloc. intros <-. by rewrite alloc_fresh in Hl.
Qed.

(** X21: [OpenFile] with [O_CREATE] on a path that holds no Entry (a perm
    without the directory bit) makes the Entry, with the perm as its mode
    and an empty buffer, and returns an open Handle on that buffer at
    position 0, named as the path was passed; the Entries and the buffers
    there were are kept as they were. *)
Theorem OpenFile_creates (m : Memory) (p : string) (flag perm : Z) (now : Time)
    (fuel : nat) :
  Get m p = None -> isCreate flag = true -> IsDir perm = false ->
  exists (m' : Memory) (hd e : file),
    OpenFile (S fuel) m p flag perm now = Some (m', inl hd)
    /\ Get m' p = Some e /\ mode e = perm
    /\ fcontent hd = fcontent e /\ file_Name hd = p
    /\ position hd = 0 /\ isClosed hd = false
    /\ bytes (deref (heap m') (fcontent e)) = []
    /\ (forall (k : string) (f : file), files m !! k = Some f -> files m' !! k = Some f)
    /\ (forall (l : loc) (c : content), heap m !! l = Some c -> heap m' !! l = Some c).
Proof. apply OpenFile_creates_at. Qed.



Lemma OpenFile_creates_witness :
  exists (m' : Memory) (hd e : file),
    OpenFile 1 ex_tree "/a/new.txt" (Z.lor (Z.lor O_WRONLY O_CREATE) O_EXCL) 420 t1
    = Some (m', inl hd)
    /\ Get m' "/a/new.txt" = Some e /\ mode e = 420
    /\ file_Name hd = "/a/new.txt" /\ position hd = 0
    /\ bytes (deref (heap m') (fcontent e)) = [].
Proof.
  destruct (OpenFile_creates ex_tree "/a/new.txt" (Z.lor (Z.lor O_WRONLY O_CREATE) O_EXCL)
              420 t1 0) as (m' & hd & e & HO & Hg & Hm & _ & Hn & Hp & _ & Hb & _);
    [vm_compute; reflexivity | reflexivity | reflexivity |].
  exists m', hd, e. auto 10.
Defined.




(** ** Symlink *)

Lemma Symlink_existing_witness :
  @Symlink content_spec 2 ex_tree "/elsewhere" "/link" t1 = Some (ex_tree, Some ErrExist).
Proof.
  destruct ex_tree_links as (e & Hl & _).
  apply (@Symlink_existing content_spec 2 ex_tree "/elsewhere" "/link" t1 _
           (Stat_links_info ex_tree "/link" 1 "/a/b/f.txt" e Hl 2%nat (le_n 2))).
Defined.

Lemma Symlink_Readlink_fresh_witness :
  exists m' : Memory,
    @Symlink content_spec 1 ex_tree "../rel/target" "/a/l2" t1 = Some (m', None)
    /\ Readlink m' "/a/l2" = inl "../rel/target".
Proof.
  apply (Symlink_Readlink_fresh 0 ex_tree "../rel/target" "/a/l2" t1).
  vm_compute. reflexivity.
Defined.

(** ** Writes and the mtime of an Entry *)

(** X26: a write through a Handle refreshes the mtime of the Handle and not
    that of the Entry: after [WriteAt] on a Handle of the Entry's buffer,
    [Stat] of the path reports the new length of the buffer with the mtime
    the Entry had before. *)
Theorem Stat_after_WriteAt_keeps_mtime (IO : ContentIO) (m : Memory) (p : string)
    (e hd : file) (q : list Byte.byte) (off : Z) (now : Time) (c' : content) (n : Z)
    (err : option error) (fuel : nat) :
  Get m p = Some e -> isSymlink (mode e) = false ->
  fcontent hd = fcontent e -> isClosed hd = false ->
  isReadAndWrite (flag hd) || isWriteOnly (flag hd) = true ->
  content_WriteAt (deref (heap m) (fcontent e)) q off = (c', n, err) ->
  exists (hd' : file) (h' : gmap loc content),
    WriteAt hd (heap m) q off now = (hd', h', (n, err))
    /\ mtime hd' = now
    /\ Stat (S fuel) (mkMemory (files m) h') p
       = Some (inl (mkFileInfo (Base p) (content_Len c') (mode e) (mtime e))).
Proof.
  intros Hget Hs Hsame Hopen Hmode Hw.
  exists (set_mtime (set_position hd (wrap64 (off + n))) now),
         (<[fcontent e := c']> (heap m)).
  split.
  { rewrite WriteAt_gate by assumption. rewrite Hmode, Hsame, Hw. reflexivity. }
  split; [reflexivity |].
  assert (Hget' : Get (mkMemory (files m) (<[fcontent e := c']> (heap m))) p = Some e)
    by exact Hget.
  simpl. rewrite Hget', (resolveLink_not_symlink _ _ _ Hs).
  unfold file_Stat. simpl. rewrite deref_insert_eq. reflexivity.
Qed.

Lemma Stat_after_WriteAt_keeps_mtime_witness :
  exists (e hd' : file) (h' : gmap loc content),
    Get ex_tree "/a/b/f.txt" = Some e
    /\ @WriteAt content_spec (mkFile "/a/b/f.txt" (fcontent e) 0 O_WRONLY 0 t1 false)
         (heap ex_tree) (list_byte_of_string "!") 5 t1
       = (hd', h', (1, None))
    /\ mtime hd' = t1
    /\ Stat 1 (mkMemory (files ex_tree) h') "/a/b/f.txt"
       = Some (inl (mkFileInfo "f.txt" 6 438 t0)).
Proof.
  destruct ex_tree_file as (e & Hget & Hs & Hd & Hb & Hmode & Hm).
  assert (Hw : spec_WriteAt (deref (heap ex_tree) (fcontent e)) (list_byte_of_string "!") 5
               = (mkContent (list_byte_of_string "hello!"), 1, None)).
  { unfold spec_WriteAt. rewrite Hb. reflexivity. }
  destruct (Stat_after_WriteAt_keeps_mtime content_spec ex_tree "/a/b/f.txt" e
              (mkFile "/a/b/f.txt" (fcontent e) 0 O_WRONLY 0 t1 false)
              (list_byte_of_string "!") 5 t1 _ 1 None 0 Hget Hs eq_refl eq_refl eq_refl Hw)
    as (hd' & h' & HW & Ht & HS).
  exists e, hd', h'. split; [exact Hget |]. split; [exact HW |]. split; [exact Ht |].
  rewrite HS, Hmode, Hm. reflexivity.
Defined.
